(** * GitLab Runner on EKS: the provisioning pipeline of [main.go]

    A shallow embedding of [main.go] and the properties its specification
    states about it.  The program talks to three external collaborators (the
    AWS session and its STS/IAM clients, [kubectl], [helm]); every
    interaction is recorded in a trace, and the collaborators' answers come
    from an oracle that may depend on everything that happened before. *)

From Stdlib Require Import String Ascii List ZArith Lia Bool Permutation.
Import ListNotations.
Set Warnings "-register-all".
Open Scope string_scope.

(** ** Go values the program manipulates *)

(** A Go [error]: [None] is [nil], [Some m] an error whose [Error()] is [m]. *)
Definition error := option string.

(** [errors.Wrap(err, message)] of github.com/pkg/errors: [nil] stays [nil],
    otherwise the message is put in front of the cause. *)
Definition errors_Wrap (err : error) (message : string) : error :=
  match err with
  | None => None
  | Some cause => Some (message ++ ": " ++ cause)
  end.

(** *** [fmt.Sprintf] on string operands

    The verbs [%s] and [%v] print the operand, [%%] prints a percent sign.
    A verb without operand prints [%!s(MISSING)], operands that are left
    over are listed as [%!(EXTRA string=..)], a lone [%] at the end prints
    [%!(NOVERB)].  Flags, widths and the other verbs do not occur in this
    program; any other verb character is printed the way Go prints a verb
    it does not know for the operand. *)
Fixpoint fmt_extra (a : list string) : string :=
  match a with
  | [] => ""
  | [x] => "string=" ++ x
  | x :: rest => "string=" ++ x ++ ", " ++ fmt_extra rest
  end.

Definition fmt_leftover (a : list string) : string :=
  match a with
  | [] => ""
  | _ => "%!(EXTRA " ++ fmt_extra a ++ ")"
  end.

Definition fmt_verb (verb : ascii) (operand : string) : string :=
  if (Ascii.eqb verb "s" || Ascii.eqb verb "v")%char%bool then operand
  else "%!" ++ String verb ("(string=" ++ operand ++ ")").

Fixpoint fmt_Sprintf (format : string) (a : list string) : string :=
  match format with
  | EmptyString => fmt_leftover a
  | String c rest =>
      if Ascii.eqb c "%" then
        match rest with
        | EmptyString => "%!(NOVERB)" ++ fmt_leftover a
        | String verb rest' =>
            if Ascii.eqb verb "%" then String "%" (fmt_Sprintf rest' a)
            else match a with
                 | [] => "%!" ++ String verb ("(MISSING)" ++ fmt_Sprintf rest' [])
                 | x :: a' => fmt_verb verb x ++ fmt_Sprintf rest' a'
                 end
        end
      else String c (fmt_Sprintf rest a)
  end.

(** ** Constants of [main.go] *)

(** A Rocq string literal cannot hold a double quote as it stands, so the two
    policy documents are written with an apostrophe where [main.go] has a
    double quote (neither document contains an apostrophe); [go_raw] puts the
    double quotes back.  Line breaks and tabs are those of the raw literal. *)
Definition go_raw_char (c : ascii) : ascii :=
  if Ascii.eqb c "'" then "034"%char else c.

Fixpoint go_raw (s : string) : string :=
  match s with
  | EmptyString => EmptyString
  | String c rest => String (go_raw_char c) (go_raw rest)
  end.

Definition GitLabRunnerRoleName := "GitLabRunnerRole".
Definition GitLabRunnerRolePolicyName := "GitLabRunnerRolePolicy".
Definition GitLabRunnerRolePolicyDocument := go_raw "{
		'Version': '2012-10-17',
		'Statement': [
			{
				'Effect': 'Allow',
				'Action': [
					'ec2:*',
					'elasticloadbalancing:*',
					'autoscaling:*',
					'cloudwatch:*',
					's3:*',
					'sns:*',
					'sqs:*',
					'rds:*',
					'route53:*',
					'iam:PassRole',
					'iam:GetRole',
					'iam:ListInstanceProfiles',
					'iam:ListRoles'
				],
				'Resource': '*'
			}
		]
	}".
Definition GitLabRunnerRoleAssumeRolePolicyDocument := go_raw "{
		'Version': '2012-10-17',
		'Statement': [
			{
				'Effect': 'Allow',
				'Principal': {
					'Service': 'eks.amazonaws.com'
				},
				'Action': 'sts:AssumeRole'
			}
		]
	}".
Definition GitLabRunnerServiceAccountName := "gitlab-runner".
Definition GitLabRunnerServiceAccountAnnotation := "eks.amazonaws.com/role-arn".
Definition GitLabRunnerServiceAccountAnnotationValue := "arn:aws:iam::%s:role/%s".
Definition GitLabRunnerHelmChartName := "gitlab-runner".
Definition GitLabRunnerHelmChartRepo := "https://charts.gitlab.io".
Definition GitLabRunnerHelmChartVersion := "0.1.0".
Definition GitLabRunnerHelmChartValuesFile := "values.yaml".
Definition GitLabRunnerHelmChartReleaseName := "gitlab-runner".
Definition GitLabRunnerHelmChartNamespace := "gitlab-runner".

(** ** The outside world *)

(** The requests the program sends out: the session and the STS/IAM API
    calls with the fields of their input structures, and subprocesses with
    the command name and argument list given to [exec.Command]. *)
Inductive Call :=
| NewSession (Region : string)
| GetCallerIdentity
| CreateRole (AssumeRolePolicyDocument RoleName : string)
| CreatePolicy (Description PolicyDocument PolicyName : string)
| AttachRolePolicy (PolicyArn RoleName : string)
| Subprocess (name : string) (arg : list string).

(** What comes back.  [Success out] carries the one output field the program
    dereferences ([Account], [Role.Arn], [Policy.Arn]); it is [None] when a
    pointer on the way to it is nil.  Calls whose output the program does not
    read ignore [out].  For a subprocess, [Failure] is a start failure or a
    non-zero exit status. *)
Inductive Reply :=
| Success (out : option string)
| Failure (err : string).

Definition Event := (Call * Reply)%type.

(** The collaborators: the reply to a call, given all earlier events. *)
Definition Oracle := list Event -> Call -> Reply.

(** ** Process state *)

(** The package-level variables of [main.go]. *)
Record Globals := mkGlobals {
  GitLabRunnerRoleARN : string;
  GitLabRunnerRolePolicyARN : string;
  GitLabRunnerServiceAccountARN : string
}.

Record Process := mkProcess {
  vars : Globals;
  trace : list Event;
  fatal_log : list string
}.

Definition initial : Process :=
  mkProcess (mkGlobals "" "" "") [] [].

(** How a computation ends: it returns, the process exits ([os.Exit]), or
    the goroutine panics (nil pointer dereference). *)
Inductive Outcome (A : Type) :=
| Returns (a : A)
| Exits (code : Z)
| Panics.
Arguments Returns {A} a.
Arguments Exits {A} code.
Arguments Panics {A}.

Definition Go (A : Type) := Process -> Outcome A * Process.

Definition ret {A} (a : A) : Go A := fun p => (Returns a, p).

Definition bind {A B} (m : Go A) (k : A -> Go B) : Go B :=
  fun p =>
    match m p with
    | (Returns a, p') => k a p'
    | (Exits code, p') => (Exits code, p')
    | (Panics, p') => (Panics, p')
    end.

Declare Scope go_scope.
Delimit Scope go_scope with go.
Notation "x <- m ;; k" := (bind m (fun x => k))
  (at level 61, m at next level, right associativity) : go_scope.
Notation "' pat <- m ;; k" := (bind m (fun x => match x with pat => k end))
  (at level 61, pat pattern, m at next level, right associativity) : go_scope.
Notation "m ;; k" := (bind m (fun _ => k))
  (at level 61, right associativity) : go_scope.
Open Scope go_scope.

Definition set_RoleARN (v : string) : Go unit := fun p =>
  (Returns tt,
   mkProcess (mkGlobals v (GitLabRunnerRolePolicyARN (vars p))
                          (GitLabRunnerServiceAccountARN (vars p)))
             (trace p) (fatal_log p)).

Definition set_RolePolicyARN (v : string) : Go unit := fun p =>
  (Returns tt,
   mkProcess (mkGlobals (GitLabRunnerRoleARN (vars p)) v
                        (GitLabRunnerServiceAccountARN (vars p)))
             (trace p) (fatal_log p)).

Definition set_ServiceAccountARN (v : string) : Go unit := fun p =>
  (Returns tt,
   mkProcess (mkGlobals (GitLabRunnerRoleARN (vars p))
                        (GitLabRunnerRolePolicyARN (vars p)) v)
             (trace p) (fatal_log p)).

Definition get_RolePolicyARN : Go string := fun p =>
  (Returns (GitLabRunnerRolePolicyARN (vars p)), p).

Definition get_ServiceAccountARN : Go string := fun p =>
  (Returns (GitLabRunnerServiceAccountARN (vars p)), p).

(** [*p]: dereferencing a nil pointer panics. *)
Definition deref (p : option string) : Go string :=
  match p with
  | Some v => ret v
  | None => fun s => (Panics, s)
  end.

(** [logrus.Fatal(err)]: logs the error, then [os.Exit(1)]. *)
Definition logrus_Fatal (err : string) : Go unit := fun p =>
  (Exits 1, mkProcess (vars p) (trace p) (fatal_log p ++ [err])).

(** The recurring [if err != nil { logrus.Fatal(err) }]. *)
Definition fatal_on (err : error) : Go unit :=
  match err with
  | Some m => logrus_Fatal m
  | None => ret tt
  end.

(** Client handles: a session and the clients made from it. *)
Inductive Session := nilSession | openSession (Region : string).
Inductive STS := sts_New (sess : Session).
Inductive IAM := iam_New (sess : Session).

(** [exec.Command(name, arg...)]. *)
Record Cmd := mkCmd { cmd_name : string; cmd_arg : list string }.
Definition exec_Command (name : string) (arg : list string) : Cmd :=
  mkCmd name arg.

Section Program.

Variable world : Oracle.

(** Send a request out, record it with its reply. *)
Definition invoke (c : Call) : Go Reply := fun p =>
  let r := world (trace p) c in
  (Returns r, mkProcess (vars p) (trace p ++ [(c, r)]) (fatal_log p)).

(** [session.NewSession(&aws.Config{Region: aws.String(region)})]. *)
Definition session_NewSession (region : string) : Go (Session * error) :=
  r <- invoke (NewSession region) ;;
  match r with
  | Failure e => ret (nilSession, Some e)
  | Success _ => ret (openSession region, None)
  end.

(** [cmd.Run()]. *)
Definition Run (cmd : Cmd) : Go error :=
  r <- invoke (Subprocess (cmd_name cmd) (cmd_arg cmd)) ;;
  match r with
  | Failure e => ret (Some e)
  | Success _ => ret None
  end.

Definition getAccountID (stsClient : STS) : Go (string * error) :=
  r <- invoke GetCallerIdentity ;;
  match r with
  | Failure e => ret ("", errors_Wrap (Some e) "failed to get caller identity")
  | Success Account =>
      a <- deref Account ;;
      ret (a, None)
  end.

Definition createRole (iamClient : IAM) (accountID : string)
  : Go (string * error) :=
  r <- invoke (CreateRole GitLabRunnerRoleAssumeRolePolicyDocument
                          GitLabRunnerRoleName) ;;
  match r with
  | Failure e => ret ("", errors_Wrap (Some e) "failed to create role")
  | Success Arn =>
      a <- deref Arn ;;
      ret (a, None)
  end.

Definition createRolePolicy (iamClient : IAM) (accountID : string)
  : Go (string * error) :=
  r <- invoke (CreatePolicy "GitLab Runner role policy"
                            GitLabRunnerRolePolicyDocument
                            GitLabRunnerRolePolicyName) ;;
  match r with
  | Failure e => ret ("", errors_Wrap (Some e) "failed to create role policy")
  | Success Arn =>
      a <- deref Arn ;;
      ret (a, None)
  end.

Definition attachRolePolicy (iamClient : IAM) (accountID : string)
  : Go error :=
  policyArn <- get_RolePolicyARN ;;
  r <- invoke (AttachRolePolicy policyArn GitLabRunnerRoleName) ;;
  match r with
  | Failure e => ret (errors_Wrap (Some e) "failed to attach role policy")
  | Success _ => ret None
  end.

Definition createServiceAccount (accountID : string) : Go (string * error) :=
  let cmd := exec_Command "kubectl"
               ["create"; "serviceaccount"; GitLabRunnerServiceAccountName] in
  err <- Run cmd ;;
  match err with
  | Some _ => ret ("", errors_Wrap err "failed to create service account")
  | None =>
      set_ServiceAccountARN
        (fmt_Sprintf GitLabRunnerServiceAccountAnnotationValue
                     [accountID; GitLabRunnerRoleName]) ;;
      arn <- get_ServiceAccountARN ;;
      let cmd := exec_Command "kubectl"
                   ["annotate"; "serviceaccount";
                    GitLabRunnerServiceAccountName;
                    GitLabRunnerServiceAccountAnnotation ++ "=" ++ arn] in
      err <- Run cmd ;;
      match err with
      | Some _ => ret ("", errors_Wrap err "failed to annotate service account")
      | None =>
          arn <- get_ServiceAccountARN ;;
          ret (arn, None)
      end
  end.

Definition deployHelmChart : Go error :=
  let cmd := exec_Command "helm"
               ["repo"; "add"; "gitlab"; GitLabRunnerHelmChartRepo] in
  err <- Run cmd ;;
  match err with
  | Some _ => ret (errors_Wrap err "failed to add helm chart repo")
  | None =>
      let cmd := exec_Command "helm"
                   ["install"; "--name"; GitLabRunnerHelmChartReleaseName;
                    "--namespace"; GitLabRunnerHelmChartNamespace;
                    "--values"; GitLabRunnerHelmChartValuesFile;
                    GitLabRunnerHelmChartName;
                    "--version"; GitLabRunnerHelmChartVersion] in
      err <- Run cmd ;;
      match err with
      | Some _ => ret (errors_Wrap err "failed to install helm chart")
      | None => ret None
      end
  end.

Definition main : Go unit :=
  '(sess, err) <- session_NewSession "eu-west-1" ;;
  fatal_on err ;;
  let iamClient := iam_New sess in
  let stsClient := sts_New sess in
  '(accountID, err) <- getAccountID stsClient ;;
  fatal_on err ;;
  '(arn, err) <- createRole iamClient accountID ;;
  set_RoleARN arn ;;
  fatal_on err ;;
  '(arn, err) <- createRolePolicy iamClient accountID ;;
  set_RolePolicyARN arn ;;
  fatal_on err ;;
  err <- attachRolePolicy iamClient accountID ;;
  fatal_on err ;;
  '(arn, err) <- createServiceAccount accountID ;;
  set_ServiceAccountARN arn ;;
  fatal_on err ;;
  err <- deployHelmChart ;;
  fatal_on err ;;
  ret tt.

End Program.

(** The exit status of the process: 0 when [main] returns, the argument of
    [os.Exit] otherwise, 2 after a panic. *)
Definition exit_code (o : Outcome unit) : Z :=
  match o with
  | Returns _ => 0
  | Exits code => code
  | Panics => 2
  end.

(** One run of the program against given collaborators. *)
Definition run (world : Oracle) : Outcome unit * Process := main world initial.

Definition run_trace (world : Oracle) : list Event := trace (snd (run world)).
Definition run_exit (world : Oracle) : Z := exit_code (fst (run world)).
Definition run_vars (world : Oracle) : Globals := vars (snd (run world)).


(** ** JSON documents

    What it means for a policy document to parse as JSON: a reader for the
    grammar of RFC 8259 (objects, arrays, strings with the two-character
    escapes, numbers kept as their lexeme, the three literals, insignificant
    white space).  It accepts valid JSON texts only; the [\u] escape, which
    the documents of this program do not use, is not read. *)
Module JSON.

Inductive value :=
| Null
| Bool (b : bool)
| Number (lexeme : string)
| Str (s : string)
| Array (items : list value)
| Object (members : list (string * value)).

Definition quote : ascii := "034"%char.

Definition is_ws (c : ascii) : bool :=
  (Ascii.eqb c " " || Ascii.eqb c "009" || Ascii.eqb c "010"
   || Ascii.eqb c "013")%char%bool.

Fixpoint skip_ws (s : string) : string :=
  match s with
  | String c rest => if is_ws c then skip_ws rest else s
  | EmptyString => s
  end.

Definition is_digit (c : ascii) : bool :=
  (48 <=? nat_of_ascii c)%nat && (nat_of_ascii c <=? 57)%nat.

(** The character an escape [\e] stands for. *)
Definition unescape (e : ascii) : option ascii :=
  if Ascii.eqb e quote then Some quote
  else if Ascii.eqb e "\" then Some "\"%char
  else if Ascii.eqb e "/" then Some "/"%char
  else if Ascii.eqb e "b" then Some "008"%char
  else if Ascii.eqb e "f" then Some "012"%char
  else if Ascii.eqb e "n" then Some "010"%char
  else if Ascii.eqb e "r" then Some "013"%char
  else if Ascii.eqb e "t" then Some "009"%char
  else None.

(** The characters of a string up to its closing quote, and what follows
    it; the opening quote has been read. *)
Fixpoint read_chars (s : string) : option (string * string) :=
  match s with
  | EmptyString => None
  | String c rest =>
      if Ascii.eqb c quote then Some (EmptyString, rest)
      else if Ascii.eqb c "\" then
        match rest with
        | EmptyString => None
        | String e rest' =>
            match unescape e, read_chars rest' with
            | Some c', Some (str, after) => Some (String c' str, after)
            | _, _ => None
            end
        end
      else if (nat_of_ascii c <? 32)%nat then None
      else match read_chars rest with
           | Some (str, after) => Some (String c str, after)
           | None => None
           end
  end.

(** The longest run of digits in front of [s], and what follows it. *)
Fixpoint read_digits (s : string) : string * string :=
  match s with
  | String c rest =>
      if is_digit c then
        let '(ds, after) := read_digits rest in (String c ds, after)
      else (EmptyString, s)
  | EmptyString => (EmptyString, s)
  end.

Definition read_int (s : string) : option (string * string) :=
  match s with
  | String c rest =>
      if Ascii.eqb c "0" then Some ("0", rest)
      else if is_digit c then
        let '(ds, after) := read_digits rest in Some (String c ds, after)
      else None
  | EmptyString => None
  end.

Definition read_frac (s : string) : option (string * string) :=
  match s with
  | String c rest =>
      if Ascii.eqb c "." then
        match read_digits rest with
        | (EmptyString, _) => None
        | (ds, after) => Some (String c ds, after)
        end
      else Some (EmptyString, s)
  | EmptyString => Some (EmptyString, s)
  end.

Definition read_sign (s : string) : string * string :=
  match s with
  | String c rest =>
      if (Ascii.eqb c "+" || Ascii.eqb c "-")%char%bool
      then (String c EmptyString, rest) else (EmptyString, s)
  | EmptyString => (EmptyString, s)
  end.

Definition read_exp (s : string) : option (string * string) :=
  match s with
  | String c rest =>
      if (Ascii.eqb c "e" || Ascii.eqb c "E")%char%bool then
        let '(sign, rest1) := read_sign rest in
        match read_digits rest1 with
        | (EmptyString, _) => None
        | (ds, after) => Some (String c (sign ++ ds), after)
        end
      else Some (EmptyString, s)
  | EmptyString => Some (EmptyString, s)
  end.

Definition read_number (s : string) : option (string * string) :=
  let '(minus, rest) :=
    match s with
    | String c rest =>
        if Ascii.eqb c "-" then (String c EmptyString, rest)
        else (EmptyString, s)
    | EmptyString => (EmptyString, s)
    end in
  match read_int rest with
  | None => None
  | Some (int, rest1) =>
      match read_frac rest1 with
      | None => None
      | Some (frac, rest2) =>
          match read_exp rest2 with
          | None => None
          | Some (exp, after) => Some (minus ++ int ++ frac ++ exp, after)
          end
      end
  end.

(** [literal w s]: [s] without the word [w] in front of it. *)
Fixpoint literal (w s : string) : option string :=
  match w, s with
  | EmptyString, _ => Some s
  | String a w', String b s' => if Ascii.eqb a b then literal w' s' else None
  | String _ _, EmptyString => None
  end.

(** A value, the elements of an array after its bracket, the members of
    an object after its brace.  Every call reads at least one character,
    so the length of the text is fuel enough. *)
Fixpoint read_value (fuel : nat) (s : string) : option (value * string) :=
  match fuel with
  | O => None
  | S fuel' =>
      match s with
      | EmptyString => None
      | String c rest =>
          if Ascii.eqb c "{" then
            match skip_ws rest with
            | String "}" after => Some (Object [], after)
            | inner =>
                match read_members fuel' inner with
                | Some (ms, after) => Some (Object ms, after)
                | None => None
                end
            end
          else if Ascii.eqb c "[" then
            match skip_ws rest with
            | String "]" after => Some (Array [], after)
            | inner =>
                match read_elements fuel' inner with
                | Some (vs, after) => Some (Array vs, after)
                | None => None
                end
            end
          else if Ascii.eqb c quote then
            match read_chars rest with
            | Some (str, after) => Some (Str str, after)
            | None => None
            end
          else if Ascii.eqb c "t" then
            option_map (fun after => (Bool true, after)) (literal "rue" rest)
          else if Ascii.eqb c "f" then
            option_map (fun after => (Bool false, after)) (literal "alse" rest)
          else if Ascii.eqb c "n" then
            option_map (fun after => (Null, after)) (literal "ull" rest)
          else
            match read_number s with
            | Some (lexeme, after) => Some (Number lexeme, after)
            | None => None
            end
      end
  end
with read_elements (fuel : nat) (s : string)
  : option (list value * string) :=
  match fuel with
  | O => None
  | S fuel' =>
      match read_value fuel' s with
      | None => None
      | Some (v, after) =>
          match skip_ws after with
          | String "," more =>
              match read_elements fuel' (skip_ws more) with
              | Some (vs, after') => Some (v :: vs, after')
              | None => None
              end
          | String "]" after' => Some ([v], after')
          | _ => None
          end
      end
  end
with read_members (fuel : nat) (s : string)
  : option (list (string * value) * string) :=
  match fuel with
  | O => None
  | S fuel' =>
      match s with
      | String c rest =>
          if Ascii.eqb c quote then
            match read_chars rest with
            | None => None
            | Some (key, after) =>
                match skip_ws after with
                | String ":" more =>
                    match read_value fuel' (skip_ws more) with
                    | None => None
                    | Some (v, after') =>
                        match skip_ws after' with
                        | String "," more' =>
                            match read_members fuel' (skip_ws more') with
                            | Some (ms, after'') =>
                                Some ((key, v) :: ms, after'')
                            | None => None
                            end
                        | String "}" after'' => Some ([(key, v)], after'')
                        | _ => None
                        end
                    end
                | _ => None
                end
            end
          else None
      | EmptyString => None
      end
  end.

(** A JSON text: one value with white space around it and nothing else. *)
Definition parse (s : string) : option value :=
  match read_value (S (String.length s)) (skip_ws s) with
  | Some (v, after) =>
      match skip_ws after with
      | EmptyString => Some v
      | _ => None
      end
  | None => None
  end.

(** Member [k] of an object (the last one of that name, as a decoder into
    a map keeps it), element [i] of an array. *)
Fixpoint lookup (k : string) (ms : list (string * value)) : option value :=
  match ms with
  | [] => None
  | (k', v) :: rest =>
      match lookup k rest with
      | Some later => Some later
      | None => if String.eqb k k' then Some v else None
      end
  end.

Definition member (k : string) (v : value) : option value :=
  match v with
  | Object ms => lookup k ms
  | _ => None
  end.

Definition element (i : nat) (v : value) : option value :=
  match v with
  | Array vs => nth_error vs i
  | _ => None
  end.

Inductive step := Key (k : string) | Index (i : nat).

(** [v.k1[i].k2 ...] *)
Fixpoint at_path (path : list step) (v : value) : option value :=
  match path with
  | [] => Some v
  | Key k :: rest =>
      match member k v with
      | Some v' => at_path rest v'
      | None => None
      end
  | Index i :: rest =>
      match element i v with
      | Some v' => at_path rest v'
      | None => None
      end
  end.

End JSON.


(** ** Reading traces *)

(** The requests of a trace, without their replies. *)
Definition calls (tr : list Event) : list Call := map fst tr.

(** The pipeline step a request belongs to (0: none). *)
Definition pipeline_step (c : Call) : nat :=
  match c with
  | NewSession _ => 1
  | GetCallerIdentity => 1
  | CreateRole _ _ => 2
  | CreatePolicy _ _ _ => 3
  | AttachRolePolicy _ _ => 4
  | Subprocess name _ =>
      if String.eqb name "kubectl" then 5
      else if String.eqb name "helm" then 6
      else 0
  end.

(** ** The script of a run *)

(** The requests of a complete run, in order, for the account [a] that the
    identity lookup resolved and the ARN [p] that policy creation returned. *)
Definition script (a p : string) : list Call :=
  [ NewSession "eu-west-1";
    GetCallerIdentity;
    CreateRole GitLabRunnerRoleAssumeRolePolicyDocument GitLabRunnerRoleName;
    CreatePolicy "GitLab Runner role policy" GitLabRunnerRolePolicyDocument
                 GitLabRunnerRolePolicyName;
    AttachRolePolicy p GitLabRunnerRoleName;
    Subprocess "kubectl"
      ["create"; "serviceaccount"; GitLabRunnerServiceAccountName];
    Subprocess "kubectl"
      ["annotate"; "serviceaccount"; GitLabRunnerServiceAccountName;
       GitLabRunnerServiceAccountAnnotation ++ "="
         ++ fmt_Sprintf GitLabRunnerServiceAccountAnnotationValue
                        [a; GitLabRunnerRoleName]];
    Subprocess "helm" ["repo"; "add"; "gitlab"; GitLabRunnerHelmChartRepo];
    Subprocess "helm"
      ["install"; "--name"; GitLabRunnerHelmChartReleaseName;
       "--namespace"; GitLabRunnerHelmChartNamespace;
       "--values"; GitLabRunnerHelmChartValuesFile;
       GitLabRunnerHelmChartName;
       "--version"; GitLabRunnerHelmChartVersion] ].

(** The two [kubectl] requests of the Service Account Binder. *)
Definition kubectl_create : Call :=
  Subprocess "kubectl"
    ["create"; "serviceaccount"; GitLabRunnerServiceAccountName].

Definition kubectl_annotate (value : string) : Call :=
  Subprocess "kubectl"
    ["annotate"; "serviceaccount"; GitLabRunnerServiceAccountName;
     GitLabRunnerServiceAccountAnnotation ++ "=" ++ value].

(** The output of the first successful call among those [sel] selects. *)
Fixpoint output_of (sel : Call -> bool) (tr : list Event) : string :=
  match tr with
  | [] => ""
  | (c, r) :: rest =>
      if sel c then
        match r with
        | Success (Some v) => v
        | _ => output_of sel rest
        end
      else output_of sel rest
  end.

Definition is_GetCallerIdentity (c : Call) : bool :=
  match c with GetCallerIdentity => true | _ => false end.
Definition is_CreateRole (c : Call) : bool :=
  match c with CreateRole _ _ => true | _ => false end.
Definition is_CreatePolicy (c : Call) : bool :=
  match c with CreatePolicy _ _ _ => true | _ => false end.
Definition is_AttachRolePolicy (c : Call) : bool :=
  match c with AttachRolePolicy _ _ => true | _ => false end.
Definition is_command (cmd : string) (c : Call) : bool :=
  match c with Subprocess name _ => String.eqb name cmd | _ => false end.

(** The account ID and the ARNs that the collaborators returned in a run
    (the empty string when they did not). *)
Definition resolved_account (tr : list Event) : string :=
  output_of is_GetCallerIdentity tr.
Definition created_role (tr : list Event) : string :=
  output_of is_CreateRole tr.
Definition created_policy (tr : list Event) : string :=
  output_of is_CreatePolicy tr.

Definition is_failure (r : Reply) : bool :=
  match r with Failure _ => true | Success _ => false end.

Definition has_failure (tr : list Event) : bool :=
  existsb (fun ev => is_failure (snd ev)) tr.

(** No reply but the last one is a failure. *)
Fixpoint fails_only_at_end (tr : list Event) : bool :=
  match tr with
  | [] => true
  | (_, r) :: rest =>
      match rest with
      | [] => true
      | _ :: _ => negb (is_failure r) && fails_only_at_end rest
      end
  end.

(** Pipeline steps never go down along a list of requests. *)
Fixpoint steps_ascend (cs : list Call) : bool :=
  match cs with
  | [] => true
  | c :: rest =>
      forallb (fun c' => Nat.leb (pipeline_step c) (pipeline_step c')) rest
      && steps_ascend rest
  end.

(** ** Collaborators used as concrete inputs *)

(** Everything works; the account is 123456789012. *)
Definition all_succeed : Oracle := fun _ c =>
  match c with
  | GetCallerIdentity => Success (Some "123456789012")
  | CreateRole _ name =>
      Success (Some ("arn:aws:iam::123456789012:role/" ++ name))
  | CreatePolicy _ _ name =>
      Success (Some ("arn:aws:iam::123456789012:policy/" ++ name))
  | _ => Success None
  end.

(** The request number [k] of the run (counted from 0) fails, the others
    succeed. *)
Definition fail_at (k : nat) : Oracle := fun h c =>
  if Nat.eqb (length h) k then Failure "injected" else all_succeed h c.

(** The service account exists already: [kubectl create] exits non-zero. *)
Definition account_exists : Oracle := fun h c =>
  match c with
  | Subprocess "kubectl" ("create" :: _) => Failure "exit status 1"
  | _ => all_succeed h c
  end.

(** [kubectl annotate] exits non-zero. *)
Definition annotate_fails : Oracle := fun h c =>
  match c with
  | Subprocess "kubectl" ("annotate" :: _) => Failure "exit status 1"
  | _ => all_succeed h c
  end.

(** Collaborators of another partition: everything works, and the ARNs that
    IAM returns start with [arn:aws-cn]. *)
Definition other_partition : Oracle := fun _ c =>
  match c with
  | GetCallerIdentity => Success (Some "123456789012")
  | CreateRole _ name =>
      Success (Some ("arn:aws-cn:iam::123456789012:role/" ++ name))
  | CreatePolicy _ _ name =>
      Success (Some ("arn:aws-cn:iam::123456789012:policy/" ++ name))
  | _ => Success None
  end.

(** ** Collaborators that succeed *)

(** The requests whose output the program dereferences. *)
Definition dereferenced (c : Call) : bool :=
  match c with
  | GetCallerIdentity | CreateRole _ _ | CreatePolicy _ _ _ => true
  | _ => false
  end.

(** Collaborators that succeed whatever they are asked, whenever they are
    asked, and fill in the output the program reads. *)
Definition cooperative (world : Oracle) : Prop :=
  forall h c, exists out,
    world h c = Success out /\ (dereferenced c = true -> out <> None).

(** How many of the requests [cs] the test [sel] selects. *)
Definition count (sel : Call -> bool) (cs : list Call) : nat :=
  length (filter sel cs).

(** ** The subprocess contract *)

(** The argument shapes of the external-interface contract, with the
    program's constants in the place holders; the annotation value is the
    one place holder that is not a constant. *)
Definition contract (name : string) (arg : list string) : Prop :=
  (name = "kubectl"
   /\ arg = ["create"; "serviceaccount"; GitLabRunnerServiceAccountName])
  \/ (name = "kubectl"
      /\ exists value,
           arg = ["annotate"; "serviceaccount"; GitLabRunnerServiceAccountName;
                  GitLabRunnerServiceAccountAnnotation ++ "=" ++ value])
  \/ (name = "helm"
      /\ arg = ["repo"; "add"; "gitlab"; GitLabRunnerHelmChartRepo])
  \/ (name = "helm"
      /\ arg = ["install"; "--name"; GitLabRunnerHelmChartReleaseName;
                "--namespace"; GitLabRunnerHelmChartNamespace;
                "--values"; GitLabRunnerHelmChartValuesFile;
                GitLabRunnerHelmChartName;
                "--version"; GitLabRunnerHelmChartVersion]).

(** ** The policy documents as JSON *)

(** The strings of a list of JSON values that are all strings. *)
Fixpoint strings_of (vs : list JSON.value) : option (list string) :=
  match vs with
  | [] => Some []
  | JSON.Str s :: rest => option_map (cons s) (strings_of rest)
  | _ :: _ => None
  end.

Definition is_string (s : string) (v : option JSON.value) : bool :=
  match v with
  | Some (JSON.Str s') => String.eqb s s'
  | _ => false
  end.

(** The actions a policy document allows on [Resource: "*"]: defined when
    the document is valid JSON whose [Statement] is a single [Allow]
    statement on resource [*] with a list of action names. *)
Definition granted_actions (doc : string) : option (list string) :=
  match JSON.parse doc with
  | Some j =>
      match JSON.member "Statement" j with
      | Some (JSON.Array [statement]) =>
          if is_string "Allow" (JSON.member "Effect" statement)
             && is_string "*" (JSON.member "Resource" statement)
          then match JSON.member "Action" statement with
               | Some (JSON.Array actions) => strings_of actions
               | _ => None
               end
          else None
      | _ => None
      end
  | None => None
  end.

(** The fixed service list of the specification. *)
Definition fixed_services : list string :=
  ["ec2"; "elasticloadbalancing"; "autoscaling"; "cloudwatch"; "s3"; "sns";
   "sqs"; "rds"; "route53"].

Definition wildcard (service : string) : string := service ++ ":*".

(** A named IAM action: an action of the [iam] service that is not the
    wildcard. *)
Definition named_iam_action (action : string) : bool :=
  String.prefix "iam:" action && negb (String.eqb action "iam:*").

(** The permissions the specification describes, with [n] named IAM
    actions: the document allows, on resource [*], the wildcard of every
    service of the fixed list and [n] named IAM actions, and nothing else. *)
Definition permissions_as_specified (doc : string) (n : nat) : Prop :=
  exists actions iam,
    granted_actions doc = Some actions
    /\ Permutation actions (map wildcard fixed_services ++ iam)%list
    /\ length iam = n
    /\ forallb named_iam_action iam = true.

(** ** Where the role ARN goes *)

(** The role ARN as an input of the two later steps: an argument of the
    attachment request, the annotation value of [kubectl annotate]. *)
Definition policy_binder_consumes (tr : list Event) (arn : string) : Prop :=
  exists policy role,
    In (AttachRolePolicy policy role) (calls tr)
    /\ (policy = arn \/ role = arn).

Definition account_binder_consumes (tr : list Event) (arn : string) : Prop :=
  In (kubectl_annotate arn) (calls tr).

Definition role_arn_consumed (world : Oracle) : Prop :=
  forall doc name arn,
    In (CreateRole doc name, Success (Some arn)) (run_trace world) ->
    policy_binder_consumes (run_trace world) arn
    /\ account_binder_consumes (run_trace world) arn.

(** The process [p] with another value in [GitLabRunnerRoleARN]. *)
Definition with_RoleARN (arn : string) (p : Process) : Process :=
  mkProcess (mkGlobals arn (GitLabRunnerRolePolicyARN (vars p))
                           (GitLabRunnerServiceAccountARN (vars p)))
            (trace p) (fatal_log p).

(** ** The subprocesses of a run *)

(** The two [helm] requests of the Chart Deployer. *)
Definition helm_repo_add : Call :=
  Subprocess "helm" ["repo"; "add"; "gitlab"; GitLabRunnerHelmChartRepo].

Definition helm_install : Call :=
  Subprocess "helm"
    ["install"; "--name"; GitLabRunnerHelmChartReleaseName;
     "--namespace"; GitLabRunnerHelmChartNamespace;
     "--values"; GitLabRunnerHelmChartValuesFile;
     GitLabRunnerHelmChartName;
     "--version"; GitLabRunnerHelmChartVersion].

Definition is_subprocess (c : Call) : bool :=
  match c with Subprocess _ _ => true | _ => false end.

(** ** What a run logs and how it ends *)

(** What [logrus.Fatal] printed in a run. *)
Definition run_log (world : Oracle) : list string :=
  fatal_log (snd (run world)).

(** The message that is logged when request [c] fails with cause [e]: the
    message of the [errors.Wrap] around the failed call in front of the
    cause; the error of [session.NewSession] is logged as it is. *)
Definition failure_message (c : Call) (e : string) : string :=
  match c with
  | NewSession _ => e
  | GetCallerIdentity => "failed to get caller identity: " ++ e
  | CreateRole _ _ => "failed to create role: " ++ e
  | CreatePolicy _ _ _ => "failed to create role policy: " ++ e
  | AttachRolePolicy _ _ => "failed to attach role policy: " ++ e
  | Subprocess name arg =>
      if String.eqb name "kubectl" then
        if String.eqb (hd "" arg) "create"
        then "failed to create service account: " ++ e
        else "failed to annotate service account: " ++ e
      else
        if String.eqb (hd "" arg) "repo"
        then "failed to add helm chart repo: " ++ e
        else "failed to install helm chart: " ++ e
  end.

(** A reply that lets the program go on: a success, with the output when
    the program dereferences it. *)
Definition delivers (ev : Event) : bool :=
  match snd ev with
  | Failure _ => false
  | Success out =>
      negb (dereferenced (fst ev))
      || match out with Some _ => true | None => false end
  end.

(** Every reply but the last one lets the program go on. *)
Fixpoint all_but_last_deliver (tr : list Event) : bool :=
  match tr with
  | [] => true
  | ev :: rest =>
      match rest with
      | [] => true
      | _ :: _ => delivers ev && all_but_last_deliver rest
      end
  end.

(** The collaborators [world], except that request number [k] of the run
    (counted from 0) fails with [e]. *)
Definition inject (k : nat) (e : string) (world : Oracle) : Oracle :=
  fun h c => if Nat.eqb (length h) k then Failure e else world h c.

(** The annotation value that [createServiceAccount] computes. *)
Definition annotation_value (accountID : string) : string :=
  fmt_Sprintf GitLabRunnerServiceAccountAnnotationValue
              [accountID; GitLabRunnerRoleName].

(** The identity lookup succeeds without an [Account] in its output. *)
Definition nil_account : Oracle := fun h c =>
  match c with
  | GetCallerIdentity => Success None
  | _ => all_succeed h c
  end.

(** ** The steps as functions *)

(** A step that neither logs nor exits, and sends one or two requests. *)
Definition quiet {A} (step : Go A) : Prop :=
  forall p,
    fatal_log (snd (step p)) = fatal_log p
    /\ (forall code, fst (step p) <> Exits code)
    /\ exists new,
         trace (snd (step p)) = (trace p ++ new)%list
         /\ 1 <= length new <= 2.

(** A step that leaves the package variables as they are. *)
Definition keeps_variables {A} (step : Go A) : Prop :=
  forall p, vars (snd (step p)) = vars p.



(** ** Tactics: symbolic execution of the program *)

(** Unfold the program down to the replies of the collaborators. *)
Ltac unfold_program :=
  cbv beta iota zeta delta
    [run_trace run_exit run_vars run main initial exit_code
     bind ret invoke deref fatal_on logrus_Fatal
     set_RoleARN set_RolePolicyARN set_ServiceAccountARN
     get_RolePolicyARN get_ServiceAccountARN
     session_NewSession Run exec_Command cmd_name cmd_arg
     getAccountID createRole createRolePolicy attachRolePolicy
     createServiceAccount deployHelmChart errors_Wrap
     vars trace fatal_log
     GitLabRunnerRoleARN GitLabRunnerRolePolicyARN
     GitLabRunnerServiceAccountARN];
  cbn [app fst snd].

(** Case analysis on the next reply of the collaborators (the one whose
    history is already known), and on its output when the program
    dereferences it. *)
Ltac next_reply world :=
  match goal with
  | |- context [world ?h ?c] =>
      lazymatch h with
      | context [world _ _] => fail
      | _ =>
          let r := fresh "reply" in
          let out := fresh "out" in
          let e := fresh "e" in
          destruct (world h c) as [out|e] eqn:r;
          cbv beta iota zeta;
          try match goal with
              | |- context [match out with Some _ => _ | None => _ end] =>
                  destruct out
              end;
          cbv beta iota zeta; cbn [app fst snd]
      end
  end.

(** All the runs of the program: one goal for each way a run can end. *)
Ltac explore world := unfold_program; repeat next_reply world.

(** A reply that cooperative collaborators ([H]) do not give. *)
Ltac refute_reply H :=
  match goal with
  | R : ?w ?h ?c = _ |- _ =>
      let o := fresh in
      let E := fresh in
      let N := fresh in
      solve [ destruct (H h c) as [o [E N]]; rewrite R in E;
              first [ discriminate E
                    | injection E as <-; exfalso; apply N; reflexivity ] ]
  end.

(** The requests of the script that a membership [H] can be about. *)
Ltac in_script H :=
  unfold script in H; cbn [In] in H;
  repeat (destruct H as [H|H]; [try discriminate H|]); [..|contradiction].

(** Bring process states to the form of a record of their fields. *)
Ltac normalise_state :=
  cbv beta iota zeta delta
    [with_RoleARN vars trace fatal_log fst snd
     GitLabRunnerRoleARN GitLabRunnerRolePolicyARN
     GitLabRunnerServiceAccountARN].

(** Case analysis on the reply that the goal inspects. *)
Ltac case_reply :=
  match goal with
  | |- context [match ?r with Success _ => _ | Failure _ => _ end] =>
      destruct r
  end.

(** The events of a run that a membership [H] can be about. *)
Ltac find_event H :=
  cbn [In] in H;
  repeat (destruct H as [H|H]; [try discriminate H|]); [..|contradiction].

(** All the runs against collaborators with an injected failure. *)
Ltac explore_injected world :=
  unfold inject; unfold_program;
  cbn [length Nat.eqb app fst snd];
  repeat (next_reply world; cbn [length Nat.eqb app fst snd]).

(** Case analysis on the output field that the goal inspects. *)
Ltac case_output :=
  match goal with
  | |- context [match ?o with Some _ => _ | None => _ end] => destruct o
  end.

(** One step function, by the replies it gets ([characterisation] says
    what the step does). *)
Ltac run_step characterisation :=
  rewrite characterisation; cbv zeta; repeat case_reply; repeat case_output;
  cbn [fst snd trace vars fatal_log].

(** A step is [quiet]. *)
Ltac quiet_step characterisation :=
  intros p; run_step characterisation;
  (split; [reflexivity|]);
  (split; [intros code; discriminate|]);
  eexists; (split; [rewrite <- ?app_assoc; reflexivity|]);
  cbn [length app]; lia.



(** * Properties of every run *)

(** ** The shape of a run *)

(** Whatever the collaborators answer, the requests of a run are an initial
    segment of the script. *)
Lemma run_follows_script world :
  calls (run_trace world)
  = firstn (length (run_trace world))
           (script (resolved_account (run_trace world))
                   (created_policy (run_trace world))).
Proof. explore world; reflexivity. Qed.

Lemma run_fails_only_at_end world :
  fails_only_at_end (run_trace world) = true.
Proof. explore world; reflexivity. Qed.

Lemma run_exit_after_failure world :
  has_failure (run_trace world) = true -> run_exit world = 1%Z.
Proof. explore world; cbn; congruence. Qed.

Lemma run_exit_values world :
  run_exit world = 0%Z \/ run_exit world = 1%Z \/ run_exit world = 2%Z.
Proof. explore world; auto. Qed.

Lemma run_exit_0_complete world :
  run_exit world = 0%Z ->
  length (run_trace world) = 9 /\ has_failure (run_trace world) = false.
Proof. explore world; cbn; intros H; try discriminate H; auto. Qed.

(** The global [GitLabRunnerRoleARN] holds what role creation returned. *)
Lemma run_stores_role_arn world doc name arn :
  In (CreateRole doc name, Success (Some arn)) (run_trace world) ->
  GitLabRunnerRoleARN (run_vars world) = arn.
Proof.
  explore world; cbn; intros H;
    repeat (destruct H as [H|H]; [try discriminate H; try congruence|]);
    try contradiction.
Qed.

Lemma run_steps_ascend world : steps_ascend (calls (run_trace world)) = true.
Proof. explore world; reflexivity. Qed.

(** ** Facts about traces *)

Lemma failure_is_last pre c e post :
  fails_only_at_end (pre ++ (c, Failure e) :: post) = true -> post = [].
Proof.
  induction pre as [|[c' r] pre IH]; cbn [app fails_only_at_end].
  - destruct post; [reflexivity | discriminate].
  - destruct (pre ++ (c, Failure e) :: post)%list eqn:E.
    + destruct pre; discriminate E.
    + intros H. apply andb_prop in H. apply IH, H.
Qed.

Lemma last_step_dominates cs c :
  steps_ascend (cs ++ [c]) = true ->
  forall c', In c' (cs ++ [c]) -> pipeline_step c' <= pipeline_step c.
Proof.
  induction cs as [|c0 cs IH]; cbn [app steps_ascend].
  - intros _ c' [<-|[]]. apply Nat.le_refl.
  - intros H c' Hin. apply andb_prop in H. destruct H as [Hall Hrest].
    destruct Hin as [<-|Hin].
    + rewrite forallb_forall in Hall.
      apply Nat.leb_le, Hall, in_or_app. right. left. reflexivity.
    + apply IH; assumption.
Qed.

Lemma has_failure_In c e tr : In (c, Failure e) tr -> has_failure tr = true.
Proof.
  intros H. apply existsb_exists. exists (c, Failure e). split; [exact H|reflexivity].
Qed.

Lemma calls_app tr1 tr2 : calls (tr1 ++ tr2) = (calls tr1 ++ calls tr2)%list.
Proof. apply map_app. Qed.

(** A failed request is the last one of the run; the process exits with
    status 1 and every request made belongs to the failed step or an
    earlier one. *)
Lemma failure_ends_run world c e :
  In (c, Failure e) (run_trace world) ->
  (exists pre, run_trace world = pre ++ [(c, Failure e)])%list
  /\ run_exit world = 1%Z
  /\ forall c', In c' (calls (run_trace world)) ->
                pipeline_step c' <= pipeline_step c.
Proof.
  intros Hin.
  destruct (in_split _ _ Hin) as [pre [post E]].
  assert (post = []) as ->.
  { apply (failure_is_last pre c e). rewrite <- E. apply run_fails_only_at_end. }
  split; [exists pre; exact E|].
  split; [apply run_exit_after_failure, (has_failure_In c e), Hin|].
  assert (Ecalls : calls (run_trace world) = (calls pre ++ [c])%list)
    by (rewrite E; apply calls_app).
  rewrite Ecalls. apply last_step_dominates.
  rewrite <- Ecalls. apply run_steps_ascend.
Qed.

(** ** Failure injection *)

(** Injecting a failure at each request in turn: the run stops there. *)
Lemma injected_failure_stops k :
  k < 9 ->
  calls (run_trace (fail_at k))
  = firstn (S k) (script "123456789012"
                         "arn:aws:iam::123456789012:policy/GitLabRunnerRolePolicy")
  /\ run_exit (fail_at k) = 1%Z.
Proof.
  intros H. do 9 (destruct k as [|k]; [vm_compute; split; reflexivity|]). lia.
Qed.

(** When [kubectl annotate] fails, [main] assigns the empty string that
    [createServiceAccount] returns to [GitLabRunnerServiceAccountARN] before
    the process exits. *)
Lemma main_after_annotate_failure :
  run_exit annotate_fails = 1%Z
  /\ GitLabRunnerServiceAccountARN (run_vars annotate_fails) = ""
  /\ fatal_log (snd (run annotate_fails))
     = ["failed to annotate service account: exit status 1"].
Proof. vm_compute. repeat split. Qed.

(** ** The steps on their own *)

Lemma Sprintf_annotation_value a :
  fmt_Sprintf GitLabRunnerServiceAccountAnnotationValue
              [a; GitLabRunnerRoleName]
  = "arn:aws:iam::" ++ a ++ ":role/GitLabRunnerRole".
Proof. reflexivity. Qed.

(** What [createServiceAccount] does once [kubectl create] has succeeded,
    by the reply to [kubectl annotate]. *)
Lemma createServiceAccount_after_create world a p out :
  world (trace p) kubectl_create = Success out ->
  let value := fmt_Sprintf GitLabRunnerServiceAccountAnnotationValue
                           [a; GitLabRunnerRoleName] in
  let h := (trace p ++ [(kubectl_create, Success out)])%list in
  let r := world h (kubectl_annotate value) in
  createServiceAccount world a p
  = (Returns match r with
             | Success _ => (value, None)
             | Failure e =>
                 ("", Some ("failed to annotate service account: " ++ e))
             end,
     mkProcess (mkGlobals (GitLabRunnerRoleARN (vars p))
                          (GitLabRunnerRolePolicyARN (vars p))
                          value)
               (h ++ [(kubectl_annotate value, r)])
               (fatal_log p)).
Proof.
  destruct p as [[role policy account] tr log].
  unfold kubectl_create, kubectl_annotate. cbn [trace vars fatal_log].
  intros Hcreate. unfold_program. rewrite Hcreate. cbv beta iota zeta.
  cbn [GitLabRunnerRoleARN GitLabRunnerRolePolicyARN].
  match goal with
  | |- context [match ?r with Success _ => _ | Failure _ => _ end] =>
      destruct r
  end; reflexivity.
Qed.

Lemma createServiceAccount_run world a p :
  createServiceAccount world a p
  = match world (trace p) kubectl_create with
    | Failure e =>
        (Returns ("", Some ("failed to create service account: " ++ e)),
         mkProcess (vars p) (trace p ++ [(kubectl_create, Failure e)])
                   (fatal_log p))
    | Success out =>
        let value := fmt_Sprintf GitLabRunnerServiceAccountAnnotationValue
                                 [a; GitLabRunnerRoleName] in
        let h := (trace p ++ [(kubectl_create, Success out)])%list in
        let r := world h (kubectl_annotate value) in
        (Returns match r with
                 | Success _ => (value, None)
                 | Failure e =>
                     ("", Some ("failed to annotate service account: " ++ e))
                 end,
         mkProcess (mkGlobals (GitLabRunnerRoleARN (vars p))
                              (GitLabRunnerRolePolicyARN (vars p))
                              value)
                   (h ++ [(kubectl_annotate value, r)])
                   (fatal_log p))
    end.
Proof.
  destruct (world (trace p) kubectl_create) as [out|e] eqn:Hcreate.
  - apply createServiceAccount_after_create, Hcreate.
  - destruct p as [[role policy account] tr log].
    unfold kubectl_create in *. cbn [trace vars fatal_log] in *.
    unfold_program. rewrite Hcreate. reflexivity.
Qed.

(** Each step on its own: what it returns and what it leaves behind, by the
    replies it gets.  A step returns an error exactly when one of its
    requests failed, and that request is then its last one. *)
Lemma getAccountID_run world stsClient p :
  getAccountID world stsClient p
  = let r := world (trace p) GetCallerIdentity in
    (match r with
     | Failure e => Returns ("", Some ("failed to get caller identity: " ++ e))
     | Success (Some account) => Returns (account, None)
     | Success None => Panics
     end,
     mkProcess (vars p) (trace p ++ [(GetCallerIdentity, r)]) (fatal_log p)).
Proof.
  destruct p as [[role policy account] tr log].
  unfold_program. case_reply; [|reflexivity].
  match goal with |- context [Success ?o] => destruct o end; reflexivity.
Qed.

Lemma createRole_run world iamClient a p :
  createRole world iamClient a p
  = let c := CreateRole GitLabRunnerRoleAssumeRolePolicyDocument
                        GitLabRunnerRoleName in
    let r := world (trace p) c in
    (match r with
     | Failure e => Returns ("", Some ("failed to create role: " ++ e))
     | Success (Some arn) => Returns (arn, None)
     | Success None => Panics
     end,
     mkProcess (vars p) (trace p ++ [(c, r)]) (fatal_log p)).
Proof.
  destruct p as [[role policy account] tr log].
  unfold_program. case_reply; [|reflexivity].
  match goal with |- context [Success ?o] => destruct o end; reflexivity.
Qed.

Lemma createRolePolicy_run world iamClient a p :
  createRolePolicy world iamClient a p
  = let c := CreatePolicy "GitLab Runner role policy"
                          GitLabRunnerRolePolicyDocument
                          GitLabRunnerRolePolicyName in
    let r := world (trace p) c in
    (match r with
     | Failure e => Returns ("", Some ("failed to create role policy: " ++ e))
     | Success (Some arn) => Returns (arn, None)
     | Success None => Panics
     end,
     mkProcess (vars p) (trace p ++ [(c, r)]) (fatal_log p)).
Proof.
  destruct p as [[role policy account] tr log].
  unfold_program. case_reply; [|reflexivity].
  match goal with |- context [Success ?o] => destruct o end; reflexivity.
Qed.

Lemma deployHelmChart_run world p :
  deployHelmChart world p
  = let c1 := Subprocess "helm"
                ["repo"; "add"; "gitlab"; GitLabRunnerHelmChartRepo] in
    let c2 := Subprocess "helm"
                ["install"; "--name"; GitLabRunnerHelmChartReleaseName;
                 "--namespace"; GitLabRunnerHelmChartNamespace;
                 "--values"; GitLabRunnerHelmChartValuesFile;
                 GitLabRunnerHelmChartName;
                 "--version"; GitLabRunnerHelmChartVersion] in
    match world (trace p) c1 with
    | Failure e =>
        (Returns (Some ("failed to add helm chart repo: " ++ e)),
         mkProcess (vars p) (trace p ++ [(c1, Failure e)]) (fatal_log p))
    | Success out =>
        let h := (trace p ++ [(c1, Success out)])%list in
        let r := world h c2 in
        (Returns match r with
                 | Success _ => None
                 | Failure e => Some ("failed to install helm chart: " ++ e)
                 end,
         mkProcess (vars p) (h ++ [(c2, r)]) (fatal_log p))
    end.
Proof.
  destruct p as [[role policy account] tr log].
  unfold_program. case_reply; [|reflexivity].
  cbv beta iota zeta. case_reply; reflexivity.
Qed.

Lemma attachRolePolicy_run world iamClient a p :
  attachRolePolicy world iamClient a p
  = let c := AttachRolePolicy (GitLabRunnerRolePolicyARN (vars p))
                              GitLabRunnerRoleName in
    let r := world (trace p) c in
    (Returns match r with
             | Success _ => None
             | Failure e => Some ("failed to attach role policy: " ++ e)
             end,
     mkProcess (vars p) (trace p ++ [(c, r)]) (fatal_log p)).
Proof.
  destruct p as [[role policy account] tr log].
  unfold_program. case_reply; reflexivity.
Qed.

Lemma attachRolePolicy_ignores_role_arn world iamClient a arn p :
  attachRolePolicy world iamClient a (with_RoleARN arn p)
  = (fst (attachRolePolicy world iamClient a p),
     with_RoleARN arn (snd (attachRolePolicy world iamClient a p))).
Proof. rewrite !attachRolePolicy_run. normalise_state. reflexivity. Qed.

Lemma createServiceAccount_ignores_role_arn world a arn p :
  createServiceAccount world a (with_RoleARN arn p)
  = (fst (createServiceAccount world a p),
     with_RoleARN arn (snd (createServiceAccount world a p))).
Proof.
  rewrite !createServiceAccount_run. cbn [with_RoleARN trace].
  destruct (world (trace p) kubectl_create); normalise_state; reflexivity.
Qed.

Lemma createRolePolicy_ignores_role_arn world iamClient a arn p :
  createRolePolicy world iamClient a (with_RoleARN arn p)
  = (fst (createRolePolicy world iamClient a p),
     with_RoleARN arn (snd (createRolePolicy world iamClient a p))).
Proof. rewrite !createRolePolicy_run. normalise_state. reflexivity. Qed.

Lemma deployHelmChart_ignores_role_arn world arn p :
  deployHelmChart world (with_RoleARN arn p)
  = (fst (deployHelmChart world p),
     with_RoleARN arn (snd (deployHelmChart world p))).
Proof.
  rewrite !deployHelmChart_run. cbv zeta. cbn [with_RoleARN trace].
  case_reply; normalise_state; reflexivity.
Qed.

(** ** Requests and the script *)

Lemma In_firstn {A} (x : A) n (l : list A) : In x (firstn n l) -> In x l.
Proof.
  intros H. rewrite <- (firstn_skipn n l). apply in_or_app. left. exact H.
Qed.

(** Every request of a run is one of the script. *)
Lemma run_calls_in_script world c :
  In c (calls (run_trace world)) ->
  In c (script (resolved_account (run_trace world))
               (created_policy (run_trace world))).
Proof. rewrite run_follows_script. apply In_firstn. Qed.

Lemma script_CreateRole a p doc name :
  In (CreateRole doc name) (script a p) ->
  doc = GitLabRunnerRoleAssumeRolePolicyDocument /\ name = GitLabRunnerRoleName.
Proof. intros H. in_script H. injection H as <- <-. split; reflexivity. Qed.

Lemma script_CreatePolicy a p description doc name :
  In (CreatePolicy description doc name) (script a p) ->
  description = "GitLab Runner role policy"
  /\ doc = GitLabRunnerRolePolicyDocument
  /\ name = GitLabRunnerRolePolicyName.
Proof. intros H. in_script H. injection H as <- <- <-. repeat split. Qed.

Lemma script_AttachRolePolicy a p policy role :
  In (AttachRolePolicy policy role) (script a p) ->
  policy = p /\ role = GitLabRunnerRoleName.
Proof. intros H. in_script H. injection H as <- <-. split; reflexivity. Qed.

Lemma script_annotate a p arg :
  In (Subprocess "kubectl" ("annotate" :: arg)) (script a p) ->
  arg = ["serviceaccount"; GitLabRunnerServiceAccountName;
         GitLabRunnerServiceAccountAnnotation ++ "="
           ++ "arn:aws:iam::" ++ a ++ ":role/GitLabRunnerRole"].
Proof. intros H. in_script H. injection H as <-. reflexivity. Qed.

(** ** Runs in which every collaborator succeeds *)

Lemma cooperative_run world :
  cooperative world ->
  calls (run_trace world)
  = script (resolved_account (run_trace world))
           (created_policy (run_trace world))
  /\ run_exit world = 0%Z.
Proof.
  intros H. explore world; try refute_reply H. split; reflexivity.
Qed.

Lemma all_succeed_cooperative : cooperative all_succeed.
Proof.
  intros h c. destruct c; cbn; eexists; (split; [reflexivity|]);
    intros; discriminate.
Qed.

(** ** The permissions of the policy document *)

Lemma granted_by_policy_document :
  granted_actions GitLabRunnerRolePolicyDocument
  = Some (map wildcard fixed_services
          ++ ["iam:PassRole"; "iam:GetRole"; "iam:ListInstanceProfiles";
              "iam:ListRoles"])%list.
Proof. vm_compute. reflexivity. Qed.

(** * The claims of the specification *)

(** C1. Fail-fast: when a request of step [k] of the pipeline (1 identity
    resolution, 2 role creation, 3 policy creation, 4 policy attachment,
    5 service-account binding, 6 chart deployment) fails, the run ends
    there: nothing at all is invoked afterwards, the process exits with
    status 1, and no request of a step after [k] occurs in the run. *)
Theorem C1_fail_fast world pre c e post :
  run_trace world = (pre ++ (c, Failure e) :: post)%list ->
  post = []
  /\ run_exit world = 1%Z
  /\ forall c', In c' (calls (run_trace world)) ->
                ~ pipeline_step c < pipeline_step c'.
Proof.
  intros E.
  assert (Hin : In (c, Failure e) (run_trace world)).
  { rewrite E. apply in_or_app. right. left. reflexivity. }
  destruct (failure_ends_run world c e Hin) as [_ [Hexit Hsteps]].
  split.
  - apply (failure_is_last pre c e). rewrite <- E. apply run_fails_only_at_end.
  - split; [exact Hexit|].
    intros c' Hc' Hlt. apply Hsteps in Hc'. lia.
Qed.

Lemma C1_fail_fast_witness :
  run_trace (fail_at 3)
  = ([(NewSession "eu-west-1", Success None);
      (GetCallerIdentity, Success (Some "123456789012"));
      (CreateRole GitLabRunnerRoleAssumeRolePolicyDocument GitLabRunnerRoleName,
       Success (Some "arn:aws:iam::123456789012:role/GitLabRunnerRole"))]
     ++ (CreatePolicy "GitLab Runner role policy" GitLabRunnerRolePolicyDocument
                      GitLabRunnerRolePolicyName, Failure "injected") :: [])%list
  /\ ([] = ([] : list Event)
      /\ run_exit (fail_at 3) = 1%Z
      /\ forall c', In c' (calls (run_trace (fail_at 3))) ->
                    ~ pipeline_step
                        (CreatePolicy "GitLab Runner role policy"
                           GitLabRunnerRolePolicyDocument
                           GitLabRunnerRolePolicyName)
                      < pipeline_step c').
Proof.
  split; [reflexivity|].
  apply (C1_fail_fast (fail_at 3)
           [(NewSession "eu-west-1", Success None);
            (GetCallerIdentity, Success (Some "123456789012"));
            (CreateRole GitLabRunnerRoleAssumeRolePolicyDocument
                        GitLabRunnerRoleName,
             Success (Some "arn:aws:iam::123456789012:role/GitLabRunnerRole"))]
           (CreatePolicy "GitLab Runner role policy"
                         GitLabRunnerRolePolicyDocument
                         GitLabRunnerRolePolicyName)
           "injected" []).
  reflexivity.
Defined.

(** C2. For every non-empty account ID [a], the annotation value that the
    Service Account Binder computes (it is stored in
    [GitLabRunnerServiceAccountARN], sent to [kubectl annotate] behind the
    annotation key, and returned on success) is exactly
    [arn:aws:iam::a:role/GitLabRunnerRole]; for account 123456789012 it is
    [arn:aws:iam::123456789012:role/GitLabRunnerRole]. *)
Theorem C2_annotation_value world a p out :
  a <> "" ->
  world (trace p) kubectl_create = Success out ->
  let value := "arn:aws:iam::" ++ a ++ ":role/GitLabRunnerRole" in
  let result := createServiceAccount world a p in
  GitLabRunnerServiceAccountARN (vars (snd result)) = value
  /\ (exists r,
        trace (snd result)
        = (trace p ++ [(kubectl_create, Success out);
                       (kubectl_annotate value, r)])%list
        /\ (is_failure r = false -> fst result = Returns (value, None)))
  /\ fmt_Sprintf GitLabRunnerServiceAccountAnnotationValue
                 ["123456789012"; GitLabRunnerRoleName]
     = "arn:aws:iam::123456789012:role/GitLabRunnerRole".
Proof.
  intros _ Hcreate value result. subst result.
  rewrite (createServiceAccount_after_create world a p out Hcreate).
  rewrite Sprintf_annotation_value. fold value. cbn [fst snd vars trace].
  split; [reflexivity|]. split; [|reflexivity].
  eexists. split.
  - rewrite <- app_assoc. reflexivity.
  - destruct (world (_ ++ _)%list _); [reflexivity|discriminate].
Qed.

Lemma C2_annotation_value_witness :
  "123456789012" <> ""
  /\ all_succeed (trace initial) kubectl_create = Success None
  /\ (let value := "arn:aws:iam::" ++ "123456789012"
                     ++ ":role/GitLabRunnerRole" in
      let result := createServiceAccount all_succeed "123456789012" initial in
      GitLabRunnerServiceAccountARN (vars (snd result)) = value
      /\ (exists r,
            trace (snd result)
            = (trace initial ++ [(kubectl_create, Success None);
                                 (kubectl_annotate value, r)])%list
            /\ (is_failure r = false -> fst result = Returns (value, None)))
      /\ fmt_Sprintf GitLabRunnerServiceAccountAnnotationValue
                     ["123456789012"; GitLabRunnerRoleName]
         = "arn:aws:iam::123456789012:role/GitLabRunnerRole").
Proof.
  split; [discriminate|]. split; [reflexivity|].
  apply (C2_annotation_value all_succeed "123456789012" initial None);
    [discriminate|reflexivity].
Defined.

(** C3 as stated fails: the document that policy creation receives names
    four IAM actions, not three. *)
Lemma C3_three_iam_actions_refuted :
  In (CreatePolicy "GitLab Runner role policy" GitLabRunnerRolePolicyDocument
                   GitLabRunnerRolePolicyName)
     (calls (run_trace all_succeed))
  /\ ~ permissions_as_specified GitLabRunnerRolePolicyDocument 3.
Proof.
  split.
  - vm_compute. do 3 right. left. reflexivity.
  - intros (actions & iam & Hgranted & Hperm & Hlen & _).
    rewrite granted_by_policy_document in Hgranted.
    injection Hgranted as <-.
    apply Permutation_length in Hperm.
    rewrite !length_app, Hlen in Hperm. cbn in Hperm. lia.
Qed.

(** C3, amended. The permissions-policy document passed to policy creation
    parses as valid JSON and allows, on resource [*], the wildcard actions
    of ec2, elasticloadbalancing, autoscaling, cloudwatch, s3, sns, sqs,
    rds and route53 plus exactly four named IAM actions: [iam:PassRole],
    [iam:GetRole], [iam:ListInstanceProfiles] and [iam:ListRoles]. *)
Theorem C3_permissions_policy world description doc name :
  In (CreatePolicy description doc name) (calls (run_trace world)) ->
  granted_actions doc
  = Some ["ec2:*"; "elasticloadbalancing:*"; "autoscaling:*"; "cloudwatch:*";
          "s3:*"; "sns:*"; "sqs:*"; "rds:*"; "route53:*";
          "iam:PassRole"; "iam:GetRole"; "iam:ListInstanceProfiles";
          "iam:ListRoles"]
  /\ permissions_as_specified doc 4.
Proof.
  intros H. apply run_calls_in_script, script_CreatePolicy in H.
  destruct H as (_ & -> & _). split.
  - exact granted_by_policy_document.
  - exists (map wildcard fixed_services
            ++ ["iam:PassRole"; "iam:GetRole"; "iam:ListInstanceProfiles";
                "iam:ListRoles"])%list,
           ["iam:PassRole"; "iam:GetRole"; "iam:ListInstanceProfiles";
            "iam:ListRoles"].
    split; [exact granted_by_policy_document|].
    split; [apply Permutation_refl|]. split; reflexivity.
Qed.

Lemma C3_permissions_policy_witness :
  In (CreatePolicy "GitLab Runner role policy" GitLabRunnerRolePolicyDocument
                   GitLabRunnerRolePolicyName)
     (calls (run_trace all_succeed))
  /\ permissions_as_specified GitLabRunnerRolePolicyDocument 4.
Proof.
  assert (H : In (CreatePolicy "GitLab Runner role policy"
                    GitLabRunnerRolePolicyDocument GitLabRunnerRolePolicyName)
                 (calls (run_trace all_succeed))).
  { vm_compute. do 3 right. left. reflexivity. }
  split; [exact H|].
  exact (proj2 (C3_permissions_policy all_succeed _ _ _ H)).
Defined.

(** C4. The trust-policy document passed to role creation parses as valid
    JSON with [Statement[0].Principal.Service] equal to [eks.amazonaws.com]
    and [Statement[0].Action] equal to [sts:AssumeRole]. *)
Theorem C4_trust_policy world doc name :
  In (CreateRole doc name) (calls (run_trace world)) ->
  exists j,
    JSON.parse doc = Some j
    /\ JSON.at_path [JSON.Key "Statement"; JSON.Index 0;
                     JSON.Key "Principal"; JSON.Key "Service"] j
       = Some (JSON.Str "eks.amazonaws.com")
    /\ JSON.at_path [JSON.Key "Statement"; JSON.Index 0; JSON.Key "Action"] j
       = Some (JSON.Str "sts:AssumeRole").
Proof.
  intros H. apply run_calls_in_script, script_CreateRole in H.
  destruct H as [-> _].
  eexists. split; [vm_compute; reflexivity|].
  split; vm_compute; reflexivity.
Qed.

Lemma C4_trust_policy_witness :
  In (CreateRole GitLabRunnerRoleAssumeRolePolicyDocument GitLabRunnerRoleName)
     (calls (run_trace all_succeed))
  /\ exists j,
       JSON.parse GitLabRunnerRoleAssumeRolePolicyDocument = Some j
       /\ JSON.at_path [JSON.Key "Statement"; JSON.Index 0;
                        JSON.Key "Principal"; JSON.Key "Service"] j
          = Some (JSON.Str "eks.amazonaws.com")
       /\ JSON.at_path [JSON.Key "Statement"; JSON.Index 0; JSON.Key "Action"] j
          = Some (JSON.Str "sts:AssumeRole").
Proof.
  assert (H : In (CreateRole GitLabRunnerRoleAssumeRolePolicyDocument
                             GitLabRunnerRoleName)
                 (calls (run_trace all_succeed))).
  { vm_compute. do 2 right. left. reflexivity. }
  split; [exact H|].
  exact (C4_trust_policy all_succeed _ _ H).
Defined.

(** C5. When every external collaborator succeeds, the run makes one
    role-creation request, one policy-creation request, one attachment
    request, two [kubectl] subprocess calls and two [helm] subprocess calls,
    in this order (after opening the session and resolving the account),
    and the process exits with status 0. *)
Theorem C5_successful_run world :
  cooperative world ->
  let tr := run_trace world in
  calls tr
  = [ NewSession "eu-west-1";
      GetCallerIdentity;
      CreateRole GitLabRunnerRoleAssumeRolePolicyDocument GitLabRunnerRoleName;
      CreatePolicy "GitLab Runner role policy" GitLabRunnerRolePolicyDocument
                   GitLabRunnerRolePolicyName;
      AttachRolePolicy (created_policy tr) GitLabRunnerRoleName;
      Subprocess "kubectl"
        ["create"; "serviceaccount"; GitLabRunnerServiceAccountName];
      Subprocess "kubectl"
        ["annotate"; "serviceaccount"; GitLabRunnerServiceAccountName;
         GitLabRunnerServiceAccountAnnotation ++ "="
           ++ "arn:aws:iam::" ++ resolved_account tr
           ++ ":role/GitLabRunnerRole"];
      Subprocess "helm" ["repo"; "add"; "gitlab"; GitLabRunnerHelmChartRepo];
      Subprocess "helm"
        ["install"; "--name"; GitLabRunnerHelmChartReleaseName;
         "--namespace"; GitLabRunnerHelmChartNamespace;
         "--values"; GitLabRunnerHelmChartValuesFile;
         GitLabRunnerHelmChartName;
         "--version"; GitLabRunnerHelmChartVersion] ]
  /\ count is_CreateRole (calls tr) = 1
  /\ count is_CreatePolicy (calls tr) = 1
  /\ count is_AttachRolePolicy (calls tr) = 1
  /\ count (is_command "kubectl") (calls tr) = 2
  /\ count (is_command "helm") (calls tr) = 2
  /\ length (calls tr) = 9
  /\ run_exit world = 0%Z.
Proof.
  intros H tr. destruct (cooperative_run world H) as [Hcalls Hexit].
  fold tr in Hcalls. rewrite Hcalls. repeat split. exact Hexit.
Qed.

Lemma C5_successful_run_witness :
  cooperative all_succeed
  /\ count (is_command "kubectl") (calls (run_trace all_succeed)) = 2
  /\ count (is_command "helm") (calls (run_trace all_succeed)) = 2
  /\ run_exit all_succeed = 0%Z.
Proof.
  split; [exact all_succeed_cooperative|].
  destruct (C5_successful_run all_succeed all_succeed_cooperative)
    as (_ & _ & _ & _ & Hk & Hh & _ & He).
  repeat split; assumption.
Defined.

(** C6. When [kubectl create serviceaccount] exits non-zero the process
    exits with a non-zero status, and neither [helm repo add] nor
    [helm install] (no [helm] subprocess at all) is invoked. *)
Theorem C6_no_helm_after_kubectl_create_failure world rest e :
  In (Subprocess "kubectl" ("create" :: "serviceaccount" :: rest), Failure e)
     (run_trace world) ->
  run_exit world <> 0%Z
  /\ forall arg, ~ In (Subprocess "helm" arg) (calls (run_trace world)).
Proof.
  intros Hin.
  destruct (failure_ends_run world _ e Hin) as [_ [Hexit Hsteps]].
  split.
  - rewrite Hexit. discriminate.
  - intros arg Hhelm. apply Hsteps in Hhelm. cbn in Hhelm. lia.
Qed.

Lemma C6_no_helm_after_kubectl_create_failure_witness :
  In (Subprocess "kubectl" ("create" :: "serviceaccount" :: ["gitlab-runner"]),
      Failure "exit status 1")
     (run_trace account_exists)
  /\ (run_exit account_exists <> 0%Z
      /\ forall arg,
           ~ In (Subprocess "helm" arg) (calls (run_trace account_exists))).
Proof.
  assert (H : In (Subprocess "kubectl"
                    ("create" :: "serviceaccount" :: ["gitlab-runner"]),
                  Failure "exit status 1")
                 (run_trace account_exists)).
  { vm_compute. do 5 right. left. reflexivity. }
  split; [exact H|].
  exact (C6_no_helm_after_kubectl_create_failure
           account_exists ["gitlab-runner"] "exit status 1" H).
Defined.

(** C7. Every subprocess is invoked with exactly the argument shape of
    the contract.  The subprocesses of a run are, in this order,
    [kubectl create serviceaccount <name>],
    [kubectl annotate serviceaccount <name> <key>=<value>],
    [helm repo add <alias> <url>] and [helm install --name <release>
    --namespace <namespace> --values <file> <chart> --version <version>],
    with the program's constants in the place holders and the annotation
    value of the resolved account; no other subprocess is started, and each
    of the four is started as soon as what comes before it has succeeded:
    [kubectl create] after the policy has been attached, each of the others
    after the success of the one before. *)
Theorem C7_subprocess_shapes world :
  let tr := run_trace world in
  let value := "arn:aws:iam::" ++ resolved_account tr
                 ++ ":role/GitLabRunnerRole" in
  (forall name arg, In (Subprocess name arg) (calls tr) -> contract name arg)
  /\ filter is_subprocess (calls tr)
     = firstn (length tr - 5)
              [kubectl_create; kubectl_annotate value;
               helm_repo_add; helm_install]
  /\ (forall policy role out,
         In (AttachRolePolicy policy role, Success out) tr ->
         In kubectl_create (calls tr))
  /\ (forall out,
         In (kubectl_create, Success out) tr ->
         In (kubectl_annotate value) (calls tr))
  /\ (forall v out,
         In (kubectl_annotate v, Success out) tr ->
         In helm_repo_add (calls tr))
  /\ (forall out,
         In (helm_repo_add, Success out) tr ->
         In helm_install (calls tr)).
Proof.
  cbv zeta. split.
  { intros name arg H. apply run_calls_in_script in H. unfold contract.
    cbn [script In] in H.
    repeat (destruct H as [H|H]; [try discriminate H|]); [..|contradiction];
      injection H as <- <-;
      solve [ left; split; reflexivity
            | right; left; split; [reflexivity|eexists; reflexivity]
            | right; right; left; split; reflexivity
            | right; right; right; split; reflexivity ]. }
  unfold kubectl_create, kubectl_annotate, helm_repo_add, helm_install, calls.
  split; [explore world; reflexivity|].
  split; [|split; [|split]]; intros until out;
    explore world; intros H; find_event H;
    cbn [map fst In]; repeat (first [left; reflexivity | right]).
Qed.

Lemma C7_subprocess_shapes_witness :
  In (AttachRolePolicy
        "arn:aws:iam::123456789012:policy/GitLabRunnerRolePolicy"
        "GitLabRunnerRole", Success None)
     (run_trace all_succeed)
  /\ In (kubectl_create, Success None) (run_trace all_succeed)
  /\ In kubectl_create (calls (run_trace all_succeed))
  /\ In (kubectl_annotate "arn:aws:iam::123456789012:role/GitLabRunnerRole")
        (calls (run_trace all_succeed)).
Proof.
  assert (Hattach :
    In (AttachRolePolicy
          "arn:aws:iam::123456789012:policy/GitLabRunnerRolePolicy"
          "GitLabRunnerRole", Success None)
       (run_trace all_succeed)).
  { vm_compute. do 4 right. left. reflexivity. }
  assert (Hcreate : In (kubectl_create, Success None) (run_trace all_succeed)).
  { vm_compute. do 5 right. left. reflexivity. }
  split; [exact Hattach|]. split; [exact Hcreate|].
  destruct (C7_subprocess_shapes all_succeed)
    as (_ & _ & Hafter_attach & Hafter_create & _).
  split.
  - exact (Hafter_attach _ _ _ Hattach).
  - exact (Hafter_create _ Hcreate).
Defined.

(** C8 as stated fails: in this run role creation returns an ARN that is
    neither an argument of the attachment request nor the annotation value
    sent to [kubectl annotate]. *)
Lemma C8_role_arn_not_consumed :
  In (CreateRole GitLabRunnerRoleAssumeRolePolicyDocument GitLabRunnerRoleName,
      Success (Some "arn:aws-cn:iam::123456789012:role/GitLabRunnerRole"))
     (run_trace other_partition)
  /\ ~ policy_binder_consumes
         (run_trace other_partition)
         "arn:aws-cn:iam::123456789012:role/GitLabRunnerRole"
  /\ ~ account_binder_consumes
         (run_trace other_partition)
         "arn:aws-cn:iam::123456789012:role/GitLabRunnerRole"
  /\ ~ role_arn_consumed other_partition.
Proof.
  assert (Hrole :
    In (CreateRole GitLabRunnerRoleAssumeRolePolicyDocument
                   GitLabRunnerRoleName,
        Success (Some "arn:aws-cn:iam::123456789012:role/GitLabRunnerRole"))
       (run_trace other_partition)).
  { vm_compute. do 2 right. left. reflexivity. }
  assert (Hpolicy :
    ~ policy_binder_consumes
        (run_trace other_partition)
        "arn:aws-cn:iam::123456789012:role/GitLabRunnerRole").
  { intros (policy & role & Hin & Hor).
    apply run_calls_in_script, script_AttachRolePolicy in Hin.
    destruct Hin as [-> ->].
    destruct Hor as [H|H]; vm_compute in H; discriminate H. }
  assert (Haccount :
    ~ account_binder_consumes
        (run_trace other_partition)
        "arn:aws-cn:iam::123456789012:role/GitLabRunnerRole").
  { unfold account_binder_consumes, kubectl_annotate. intros Hin.
    apply run_calls_in_script, script_annotate in Hin.
    vm_compute in Hin. discriminate Hin. }
  split; [exact Hrole|]. split; [exact Hpolicy|]. split; [exact Haccount|].
  intros H. destruct (H _ _ _ Hrole) as [Hp _]. exact (Hpolicy Hp).
Qed.

(** C8, amended. The role ARN that role creation returns is stored in the
    global [GitLabRunnerRoleARN] and is an input of no later step: the
    Policy Binder attaches the policy ARN that policy creation returned to
    the role of the fixed name [GitLabRunnerRole], the Service Account
    Binder annotates with [arn:aws:iam::<account>:role/GitLabRunnerRole]
    computed from the resolved account ID, every request of a run is a
    request of the script, which the resolved account and the policy ARN
    determine, and none of the four steps that follow role creation
    ([createRolePolicy], [attachRolePolicy], [createServiceAccount],
    [deployHelmChart]) depends on the value of [GitLabRunnerRoleARN]. *)
Theorem C8_role_arn_stored_not_read world :
  let tr := run_trace world in
  (forall doc name arn,
      In (CreateRole doc name, Success (Some arn)) tr ->
      GitLabRunnerRoleARN (run_vars world) = arn)
  /\ (forall policy role,
         In (AttachRolePolicy policy role) (calls tr) ->
         policy = created_policy tr /\ role = GitLabRunnerRoleName)
  /\ (forall arg,
         In (Subprocess "kubectl" ("annotate" :: arg)) (calls tr) ->
         arg = ["serviceaccount"; GitLabRunnerServiceAccountName;
                GitLabRunnerServiceAccountAnnotation ++ "="
                  ++ "arn:aws:iam::" ++ resolved_account tr
                  ++ ":role/GitLabRunnerRole"])
  /\ (forall iamClient a arn p,
         attachRolePolicy world iamClient a (with_RoleARN arn p)
         = (fst (attachRolePolicy world iamClient a p),
            with_RoleARN arn (snd (attachRolePolicy world iamClient a p))))
  /\ (forall a arn p,
         createServiceAccount world a (with_RoleARN arn p)
         = (fst (createServiceAccount world a p),
            with_RoleARN arn (snd (createServiceAccount world a p))))
  /\ (forall iamClient a arn p,
         createRolePolicy world iamClient a (with_RoleARN arn p)
         = (fst (createRolePolicy world iamClient a p),
            with_RoleARN arn (snd (createRolePolicy world iamClient a p))))
  /\ (forall arn p,
         deployHelmChart world (with_RoleARN arn p)
         = (fst (deployHelmChart world p),
            with_RoleARN arn (snd (deployHelmChart world p))))
  /\ calls tr
     = firstn (length tr) (script (resolved_account tr) (created_policy tr)).
Proof.
  intros tr. split; [|split; [|split; [|split; [|split; [|split; [|split]]]]]].
  - intros doc name arn. apply run_stores_role_arn.
  - intros policy role H.
    apply run_calls_in_script, script_AttachRolePolicy in H. exact H.
  - intros arg H. apply run_calls_in_script, script_annotate in H. exact H.
  - intros. apply attachRolePolicy_ignores_role_arn.
  - intros. apply createServiceAccount_ignores_role_arn.
  - intros. apply createRolePolicy_ignores_role_arn.
  - intros. apply deployHelmChart_ignores_role_arn.
  - apply run_follows_script.
Qed.

Lemma C8_role_arn_stored_not_read_witness :
  In (AttachRolePolicy
        "arn:aws-cn:iam::123456789012:policy/GitLabRunnerRolePolicy"
        "GitLabRunnerRole")
     (calls (run_trace other_partition))
  /\ "arn:aws-cn:iam::123456789012:policy/GitLabRunnerRolePolicy"
     = created_policy (run_trace other_partition)
  /\ "GitLabRunnerRole" = GitLabRunnerRoleName.
Proof.
  assert (H : In (AttachRolePolicy
                    "arn:aws-cn:iam::123456789012:policy/GitLabRunnerRolePolicy"
                    "GitLabRunnerRole")
                 (calls (run_trace other_partition))).
  { vm_compute. do 4 right. left. reflexivity. }
  split; [exact H|].
  exact (proj1 (proj2 (C8_role_arn_stored_not_read other_partition)) _ _ H).
Defined.


(** C9. [createRole], [createRolePolicy] and [attachRolePolicy] do not
    depend on their account ID argument: with the same collaborators and
    from the same process state they return the same result, send the same
    request and leave the same state for any two account IDs.  In the
    script of a run the account ID occurs in request 6 ([kubectl annotate])
    only. *)
Theorem C9_account_id_unused world iamClient a1 a2 p policy :
  createRole world iamClient a1 p = createRole world iamClient a2 p
  /\ createRolePolicy world iamClient a1 p
     = createRolePolicy world iamClient a2 p
  /\ attachRolePolicy world iamClient a1 p
     = attachRolePolicy world iamClient a2 p
  /\ firstn 6 (script a1 policy) = firstn 6 (script a2 policy)
  /\ skipn 7 (script a1 policy) = skipn 7 (script a2 policy).
Proof.
  split; [reflexivity|]. split; [reflexivity|]. split; [reflexivity|].
  split; unfold script; [cbn [firstn]|cbn [skipn]]; reflexivity.
Qed.

(** C10. [createServiceAccount] is not atomic on error: when
    [kubectl create serviceaccount] succeeds and [kubectl annotate] exits
    non-zero, the function returns the empty string with an error, while
    the global [GitLabRunnerServiceAccountARN] holds the computed annotation
    value; the failing [kubectl annotate] was already given that value. *)
Theorem C10_createServiceAccount_not_atomic world a p out e :
  let value := fmt_Sprintf GitLabRunnerServiceAccountAnnotationValue
                           [a; GitLabRunnerRoleName] in
  world (trace p) kubectl_create = Success out ->
  world (trace p ++ [(kubectl_create, Success out)])%list
        (kubectl_annotate value) = Failure e ->
  exists p',
    createServiceAccount world a p
    = (Returns ("", Some ("failed to annotate service account: " ++ e)), p')
    /\ GitLabRunnerServiceAccountARN (vars p') = value
    /\ trace p' = (trace p ++ [(kubectl_create, Success out);
                               (kubectl_annotate value, Failure e)])%list.
Proof.
  intros value Hcreate Hannotate.
  rewrite (createServiceAccount_after_create world a p out Hcreate).
  fold value. rewrite Hannotate. eexists. split; [reflexivity|].
  cbn [vars trace GitLabRunnerServiceAccountARN].
  split; [reflexivity|]. rewrite <- app_assoc. reflexivity.
Qed.

Lemma C10_createServiceAccount_not_atomic_witness :
  exists p',
    createServiceAccount annotate_fails "123456789012"
      (mkProcess (mkGlobals "" "" "stale") [] [])
    = (Returns ("", Some "failed to annotate service account: exit status 1"),
       p')
    /\ GitLabRunnerServiceAccountARN (vars p')
       = "arn:aws:iam::123456789012:role/GitLabRunnerRole"
    /\ trace p'
       = [(kubectl_create, Success None);
          (kubectl_annotate "arn:aws:iam::123456789012:role/GitLabRunnerRole",
           Failure "exit status 1")].
Proof.
  apply (C10_createServiceAccount_not_atomic annotate_fails "123456789012"
           (mkProcess (mkGlobals "" "" "stale") [] []) None "exit status 1");
    reflexivity.
Defined.

(** * Further properties of the program *)

(** ** How a run ends *)

(** X1. When a request fails, exactly one message is logged: the message
    of the step around the failed request followed by the cause (the
    session error is logged without a message in front). *)
Theorem X1_fatal_message world c e :
  In (c, Failure e) (run_trace world) ->
  run_log world = [failure_message c e].
Proof.
  unfold run_log. explore world; intros H; find_event H;
    injection H as <- <-; reflexivity.
Qed.

Lemma X1_fatal_message_witness :
  In (kubectl_create, Failure "exit status 1") (run_trace account_exists)
  /\ run_log account_exists
     = ["failed to create service account: exit status 1"].
Proof.
  assert (H : In (kubectl_create, Failure "exit status 1")
                 (run_trace account_exists)).
  { vm_compute. do 5 right. left. reflexivity. }
  split; [exact H|].
  exact (X1_fatal_message account_exists _ _ H).
Defined.

(** X2. The process exits with status 1 exactly when a request failed, and
    exactly then something has been logged (one message). *)
Theorem X2_exit_1_iff_failure world :
  (run_exit world = 1%Z <-> has_failure (run_trace world) = true)
  /\ (run_exit world = 1%Z <-> length (run_log world) = 1)
  /\ (run_exit world <> 1%Z <-> run_log world = []).
Proof.
  unfold run_log. explore world; cbn;
    (split; [|split]); split; intros H;
    first [ reflexivity | discriminate H | exfalso; apply H; reflexivity
          | exfalso; lia | congruence ].
Qed.

(** X3. The process panics (status 2) exactly when the last reply of the
    run is a success without the output field that the program dereferences
    ([Account], [Role.Arn], [Policy.Arn]); nothing is logged then. *)
Theorem X3_panic_iff_nil_output world :
  (run_exit world = 2%Z
   <-> exists pre c,
         run_trace world = (pre ++ [(c, Success None)])%list
         /\ dereferenced c = true)
  /\ (run_exit world = 2%Z -> run_log world = []).
Proof.
  unfold run_log. split; [split|].
  - explore world; cbn; intros H; try discriminate H;
      match goal with
      | |- exists pre c, ?tr = _ /\ _ =>
          exists (removelast tr); eexists; split; [reflexivity|reflexivity]
      end.
  - intros (pre & c & E & D). revert E.
    explore world; intros E;
      apply (f_equal (fun tr => last tr (c, Success None))) in E;
      rewrite last_last in E; cbn [last] in E;
      first [ reflexivity | discriminate E
            | injection E as <- _; discriminate D
            | injection E as <-; discriminate D ].
  - explore world; cbn; intros H; first [reflexivity | discriminate H].
Qed.

(** X4. The process exits with status 0 exactly when the run made all nine
    requests and none failed; the three package variables then hold the
    role ARN and the policy ARN that IAM returned and the annotation value
    of the resolved account, and nothing has been logged. *)
Theorem X4_exit_0_iff_complete world :
  (run_exit world = 0%Z
   <-> length (run_trace world) = 9
       /\ has_failure (run_trace world) = false)
  /\ (run_exit world = 0%Z ->
      run_vars world
      = mkGlobals (created_role (run_trace world))
                  (created_policy (run_trace world))
                  (annotation_value (resolved_account (run_trace world)))
      /\ run_log world = []).
Proof.
  unfold run_log, annotation_value. split; [split|].
  - explore world; cbn; intros H; try discriminate H; split; reflexivity.
  - explore world; cbn; intros [H1 H2];
      first [ reflexivity | discriminate H1 | discriminate H2 ].
  - explore world; cbn; intros H; try discriminate H; split; reflexivity.
Qed.

Lemma X4_exit_0_iff_complete_witness :
  run_exit all_succeed = 0%Z
  /\ run_vars all_succeed
     = mkGlobals "arn:aws:iam::123456789012:role/GitLabRunnerRole"
                 "arn:aws:iam::123456789012:policy/GitLabRunnerRolePolicy"
                 "arn:aws:iam::123456789012:role/GitLabRunnerRole"
  /\ run_log all_succeed = [].
Proof.
  split; [reflexivity|].
  exact (proj2 (X4_exit_0_iff_complete all_succeed) eq_refl).
Defined.

Lemma X3_panic_iff_nil_output_witness :
  run_exit nil_account = 2%Z /\ run_log nil_account = [].
Proof.
  split; [reflexivity|].
  exact (proj2 (X3_panic_iff_nil_output nil_account) eq_refl).
Defined.

(** ** The order of the requests *)

Lemma NoDup_firstn {A} n (l : list A) : NoDup l -> NoDup (firstn n l).
Proof.
  intros H. rewrite <- (firstn_skipn n l) in H.
  exact (NoDup_app_remove_r _ _ H).
Qed.

Lemma script_NoDup a p : NoDup (script a p).
Proof.
  unfold script.
  repeat (constructor;
          [cbn [In]; intros H;
           repeat (destruct H as [H|H]; [discriminate H|]); exact H|]).
  constructor.
Qed.

Lemma run_length_bounds world :
  1 <= length (run_trace world) <= 9.
Proof. explore world; cbn [length]; lia. Qed.

Lemma run_all_but_last_deliver world :
  all_but_last_deliver (run_trace world) = true.
Proof. explore world; reflexivity. Qed.

Lemma delivers_before_last pre ev post :
  all_but_last_deliver (pre ++ ev :: post) = true ->
  post <> [] -> delivers ev = true.
Proof.
  induction pre as [|ev' pre IH]; cbn [app all_but_last_deliver].
  - destruct post; [congruence|]. intros H _. apply andb_prop in H. apply H.
  - destruct (pre ++ ev :: post)%list eqn:E.
    + destruct pre; discriminate E.
    + intros H. apply andb_prop in H. apply IH, H.
Qed.

(** X5. [main] makes every SDK call and starts every subprocess at most
    once: the calls of a run (one event for each call of a function of the
    session, STS or IAM client and for each [cmd.Run]) are between one and
    nine and pairwise different.  What the SDK does inside one call, its
    own resending included, is below the events of the trace. *)
Theorem X5_each_call_made_at_most_once world :
  NoDup (calls (run_trace world))
  /\ 1 <= length (run_trace world) <= 9.
Proof.
  split; [|apply run_length_bounds].
  rewrite run_follows_script. apply NoDup_firstn, script_NoDup.
Qed.

(** X6. Every request that is followed by another one succeeded, and its
    reply carried the output field when the program dereferences it: the
    program goes on after nothing else. *)
Theorem X6_earlier_requests_succeeded world pre c r post :
  run_trace world = (pre ++ (c, r) :: post)%list ->
  post <> [] ->
  exists out,
    r = Success out /\ (dereferenced c = true -> out <> None).
Proof.
  intros E Hpost.
  assert (H : delivers (c, r) = true).
  { pose proof (run_all_but_last_deliver world) as A. rewrite E in A.
    exact (delivers_before_last _ _ _ A Hpost). }
  unfold delivers in H. cbn [fst snd] in H.
  destruct r as [out|e]; [|discriminate H].
  exists out. split; [reflexivity|].
  intros D. rewrite D in H. cbn in H. destruct out; [discriminate|discriminate H].
Qed.

Lemma X6_earlier_requests_succeeded_witness :
  run_trace account_exists
  = ([(NewSession "eu-west-1", Success None)]
     ++ (GetCallerIdentity, Success (Some "123456789012"))
     :: skipn 2 (run_trace account_exists))%list
  /\ skipn 2 (run_trace account_exists) <> []
  /\ exists out,
       Success (Some "123456789012") = Success out
       /\ (dereferenced GetCallerIdentity = true -> out <> None).
Proof.
  split; [reflexivity|]. split; [vm_compute; discriminate|].
  apply (X6_earlier_requests_succeeded account_exists
           [(NewSession "eu-west-1", Success None)]
           GetCallerIdentity (Success (Some "123456789012"))
           (skipn 2 (run_trace account_exists)));
    [reflexivity|vm_compute; discriminate].
Defined.

(** X7. The policy is attached only after the role and the policy exist:
    when a run sends the attachment request, role creation has succeeded
    before, and policy creation has returned the very ARN that is attached. *)
Theorem X7_attach_after_role_and_policy world policy role :
  In (AttachRolePolicy policy role) (calls (run_trace world)) ->
  (exists doc name arn,
      In (CreateRole doc name, Success (Some arn)) (run_trace world))
  /\ (exists description doc name,
         In (CreatePolicy description doc name, Success (Some policy))
            (run_trace world)).
Proof.
  unfold calls. explore world; cbn [map fst]; intros H; find_event H;
    injection H as <- <-;
    (split; do 3 eexists; cbn [In];
     [do 2 right; left; reflexivity | do 3 right; left; reflexivity]).
Qed.

Lemma X7_attach_after_role_and_policy_witness :
  In (AttachRolePolicy
        "arn:aws:iam::123456789012:policy/GitLabRunnerRolePolicy"
        "GitLabRunnerRole")
     (calls (run_trace all_succeed))
  /\ exists description doc name,
       In (CreatePolicy description doc name,
           Success (Some "arn:aws:iam::123456789012:policy/GitLabRunnerRolePolicy"))
          (run_trace all_succeed).
Proof.
  assert (H : In (AttachRolePolicy
                    "arn:aws:iam::123456789012:policy/GitLabRunnerRolePolicy"
                    "GitLabRunnerRole")
                 (calls (run_trace all_succeed))).
  { vm_compute. do 4 right. left. reflexivity. }
  split; [exact H|].
  exact (proj2 (X7_attach_after_role_and_policy all_succeed _ _ H)).
Defined.

(** X8. When a step fails, the variable that [main] assigns from its
    result holds the empty string when the process exits: a failed role
    creation leaves [GitLabRunnerRoleARN] empty, a failed policy creation
    [GitLabRunnerRolePolicyARN], and a failed [kubectl] subprocess (create
    or annotate) [GitLabRunnerServiceAccountARN]. *)
Theorem X8_failed_step_leaves_variable_empty world :
  (forall doc name e,
      In (CreateRole doc name, Failure e) (run_trace world) ->
      GitLabRunnerRoleARN (run_vars world) = "")
  /\ (forall description doc name e,
         In (CreatePolicy description doc name, Failure e) (run_trace world) ->
         GitLabRunnerRolePolicyARN (run_vars world) = "")
  /\ (forall arg e,
         In (Subprocess "kubectl" arg, Failure e) (run_trace world) ->
         GitLabRunnerServiceAccountARN (run_vars world) = "").
Proof.
  split; [|split]; intros until e;
    explore world; intros H; find_event H; reflexivity.
Qed.

Lemma X8_failed_step_leaves_variable_empty_witness :
  In (Subprocess "kubectl"
        ["annotate"; "serviceaccount"; "gitlab-runner";
         "eks.amazonaws.com/role-arn=arn:aws:iam::123456789012:role/GitLabRunnerRole"],
      Failure "exit status 1")
     (run_trace annotate_fails)
  /\ GitLabRunnerServiceAccountARN (run_vars annotate_fails) = "".
Proof.
  assert (H : In (Subprocess "kubectl"
                    ["annotate"; "serviceaccount"; "gitlab-runner";
                     "eks.amazonaws.com/role-arn=arn:aws:iam::123456789012:role/GitLabRunnerRole"],
                  Failure "exit status 1")
                 (run_trace annotate_fails)).
  { vm_compute. do 6 right. left. reflexivity. }
  split; [exact H|].
  exact (proj2 (proj2 (X8_failed_step_leaves_variable_empty annotate_fails))
               _ _ H).
Defined.

(** ** Failure injection *)

Lemma inject_at world e k :
  k < length (run_trace world) ->
  run_trace (inject k e world)
  = (firstn k (run_trace world)
     ++ [(nth k (calls (run_trace world)) GetCallerIdentity, Failure e)])%list
  /\ run_exit (inject k e world) = 1%Z.
Proof.
  intros H.
  do 9 (destruct k as [|k];
        [revert H; unfold calls; explore_injected world;
         cbn [length firstn nth map fst app]; intros H;
         first [ split; reflexivity | exfalso; lia ]|]).
  pose proof (run_length_bounds world). lia.
Qed.

(** X9. Failure injection: make any request of any run fail instead of
    answering as it did, and the run is the same up to that request, ends
    with its failure, and the process exits with status 1. *)
Theorem X9_injected_failure_truncates world pre c r post e :
  run_trace world = (pre ++ (c, r) :: post)%list ->
  run_trace (inject (length pre) e world) = (pre ++ [(c, Failure e)])%list
  /\ run_exit (inject (length pre) e world) = 1%Z.
Proof.
  intros E.
  assert (Hk : length pre < length (run_trace world)).
  { rewrite E, length_app. cbn [length]. lia. }
  destruct (inject_at world e (length pre) Hk) as [Htrace Hexit].
  split; [|exact Hexit].
  rewrite Htrace, E. f_equal.
  - rewrite firstn_app, firstn_all, Nat.sub_diag. cbn [firstn].
    apply app_nil_r.
  - rewrite calls_app. cbn [calls map fst].
    replace (length pre) with (length (map fst pre)) by apply length_map.
    rewrite nth_middle. reflexivity.
Qed.

Lemma X9_injected_failure_truncates_witness :
  run_trace all_succeed
  = (firstn 5 (run_trace all_succeed)
     ++ (kubectl_create, Success None) :: skipn 6 (run_trace all_succeed))%list
  /\ run_trace (inject 5 "exit status 1" all_succeed)
     = (firstn 5 (run_trace all_succeed)
        ++ [(kubectl_create, Failure "exit status 1")])%list
  /\ run_exit (inject 5 "exit status 1" all_succeed) = 1%Z.
Proof.
  split; [reflexivity|].
  exact (X9_injected_failure_truncates all_succeed
           (firstn 5 (run_trace all_succeed)) kubectl_create (Success None)
           (skipn 6 (run_trace all_succeed)) "exit status 1" eq_refl).
Defined.

(** ** The steps as functions *)

(** X10. Only [main] logs and exits, and only [createServiceAccount]
    writes a package variable: each of the six step functions returns or
    panics without logging, after one or two requests of its own;
    [getAccountID], [createRole], [createRolePolicy], [attachRolePolicy]
    and [deployHelmChart] leave the three package variables unchanged, and
    [createServiceAccount] leaves [GitLabRunnerRoleARN] and
    [GitLabRunnerRolePolicyARN] unchanged. *)
Theorem X10_steps_frame world stsClient iamClient a :
  quiet (getAccountID world stsClient)
  /\ quiet (createRole world iamClient a)
  /\ quiet (createRolePolicy world iamClient a)
  /\ quiet (attachRolePolicy world iamClient a)
  /\ quiet (createServiceAccount world a)
  /\ quiet (deployHelmChart world)
  /\ keeps_variables (getAccountID world stsClient)
  /\ keeps_variables (createRole world iamClient a)
  /\ keeps_variables (createRolePolicy world iamClient a)
  /\ keeps_variables (attachRolePolicy world iamClient a)
  /\ keeps_variables (deployHelmChart world)
  /\ forall p,
       GitLabRunnerRoleARN (vars (snd (createServiceAccount world a p)))
       = GitLabRunnerRoleARN (vars p)
       /\ GitLabRunnerRolePolicyARN
            (vars (snd (createServiceAccount world a p)))
          = GitLabRunnerRolePolicyARN (vars p).
Proof.
  split; [quiet_step getAccountID_run|].
  split; [quiet_step createRole_run|].
  split; [quiet_step createRolePolicy_run|].
  split; [quiet_step attachRolePolicy_run|].
  split; [quiet_step createServiceAccount_run|].
  split; [quiet_step deployHelmChart_run|].
  split; [intros p; run_step getAccountID_run; reflexivity|].
  split; [intros p; run_step createRole_run; reflexivity|].
  split; [intros p; run_step createRolePolicy_run; reflexivity|].
  split; [intros p; run_step attachRolePolicy_run; reflexivity|].
  split; [intros p; run_step deployHelmChart_run; reflexivity|].
  intros p; run_step createServiceAccount_run; split; reflexivity.
Qed.


(** ** The annotation value *)

Lemma string_length_append (a b : string) :
  String.length (a ++ b) = String.length a + String.length b.
Proof. induction a as [|c a IH]; cbn; [reflexivity|]. rewrite IH. reflexivity. Qed.

Lemma append_cancel_l (s a b : string) : s ++ a = s ++ b -> a = b.
Proof.
  induction s as [|c s IH]; cbn; intros H; [exact H|].
  injection H as H. apply IH, H.
Qed.

Lemma append_cancel_r (a b s : string) : a ++ s = b ++ s -> a = b.
Proof.
  revert b. induction a as [|c a IH]; intros [|d b] H; cbn in H.
  - reflexivity.
  - apply (f_equal String.length) in H. cbn in H.
    rewrite string_length_append in H. lia.
  - apply (f_equal String.length) in H. cbn in H.
    rewrite string_length_append in H. lia.
  - injection H as -> H. f_equal. apply IH, H.
Qed.

(** X12. The annotation value determines the account: two account IDs
    with the same annotation value, or the same [kubectl annotate] request,
    are equal. *)
Theorem X12_annotation_value_injective a1 a2 :
  (annotation_value a1 = annotation_value a2 -> a1 = a2)
  /\ (kubectl_annotate (annotation_value a1)
      = kubectl_annotate (annotation_value a2) -> a1 = a2).
Proof.
  assert (Hvalue : annotation_value a1 = annotation_value a2 -> a1 = a2).
  { unfold annotation_value. rewrite !Sprintf_annotation_value. intros H.
    apply append_cancel_l, append_cancel_r in H. exact H. }
  split; [exact Hvalue|].
  intros H. apply Hvalue.
  apply (f_equal (fun c => match c with
                           | Subprocess _ [_; _; _; annotation] => annotation
                           | _ => ""
                           end)) in H.
  unfold kubectl_annotate in H. cbv beta iota in H.
  apply append_cancel_l in H. apply (append_cancel_l "=") in H. exact H.
Qed.

Lemma X12_annotation_value_injective_witness :
  annotation_value "123456789012" = annotation_value "123456789012"
  /\ "123456789012" = "123456789012".
Proof.
  split; [reflexivity|].
  exact (proj1 (X12_annotation_value_injective "123456789012" "123456789012")
               eq_refl).
Defined.
